(** * Calendar aggregator: the fetch / normalize / merge / partition pipeline

    A shallow embedding of the two route handlers of the service
    ([GET /events] of [src/server.js], and [GET /wall] with its helper
    [formatEventTime]) together with the JavaScript primitives they use,
    and the properties of the pipeline proved over that embedding. *)

From Stdlib Require Import ZArith NArith Lia Bool Ascii String List.
From Stdlib Require Import Permutation Sorted.
From stdpp Require Import base list strings.
Import ListNotations.

Local Open Scope Z_scope.

(* ================================================================== *)
(** * JavaScript primitives used by the handlers *)
(* ================================================================== *)

Module Js.

(** A string-valued property as the calendar API types it
    ([string | null | undefined]). *)
Inductive value : Type :=
| undefined
| null
| str (s : string).

(** [Boolean(v)]: a string is truthy unless it is empty. *)
Definition truthy (v : value) : bool :=
  match v with
  | str s => negb (String.eqb s "")
  | _ => false
  end.

(** [a || b] *)
Definition or (a b : value) : value := if truthy a then a else b.

(** [a || "literal"], whose result is always a string. *)
Definition orString (a : value) (b : string) : string :=
  match a with
  | str s => if String.eqb s "" then b else s
  | _ => b
  end.

(** [String(v)], which is also what a template literal applies. *)
Definition toString (v : value) : string :=
  match v with
  | undefined => "undefined"
  | null => "null"
  | str s => s
  end.

(** [o?.f] on an optional nested object: [undefined] when [o] is nullish. *)
Definition optChain {A : Type} (o : option A) (f : A -> value) : value :=
  match o with
  | Some x => f x
  | None => undefined
  end.

(** ** [String.prototype.localeCompare]

    The collation table is the host's (ICU's root collation under
    Node.js, not the order of the code units); it is taken as a parameter
    giving every code unit its collation weight.  Strings are compared
    weight by weight from the left, a proper prefix coming first: this is
    the comparison of strings whose characters have weights different from
    one another, as those of timestamps do. *)
Section Collation.
Variable weight : ascii -> N.

Fixpoint localeCompare (a b : string) : Z :=
  match a, b with
  | EmptyString, EmptyString => 0
  | EmptyString, String _ _ => -1
  | String _ _, EmptyString => 1
  | String x a', String y b' =>
      match (weight x ?= weight y)%N with
      | Lt => -1
      | Gt => 1
      | Eq => localeCompare a' b'
      end
  end.
End Collation.

(** ** [Array.prototype.sort (comparefn)]

    The sort is stable; [insert] puts an element in front of the first
    element it does not compare greater than, so that equal elements keep
    the order of the input array. *)
Section Sort.
Context {A : Type}.
Variable comparefn : A -> A -> Z.

Fixpoint insert (x : A) (l : list A) : list A :=
  match l with
  | [] => [x]
  | y :: l' => if comparefn x y <=? 0 then x :: l else y :: insert x l'
  end.

Definition sort (l : list A) : list A := fold_right insert [] l.

(** The order the comparison function describes. *)
Definition ascending (a b : A) : Prop := comparefn a b <= 0.
End Sort.

(** ** Numbers: [parseInt (s, 10)] and [Math.min] *)

(** The result of [parseInt]: [NaN], a double whose value is the integer
    [z], or an infinity. *)
Inductive number : Type :=
| NaN
| int (z : Z)
| infinity (negative : bool).

(** The double nearest to the integer [z], ties going to the even
    significand: [z] itself below 2^53, a multiple of a power of two with
    a significand of 53 bits beyond, and an infinity from 2^1024 on. *)
Definition toDouble (z : Z) : number :=
  let a := Z.abs z in
  if a <? 2 ^ 53 then int z
  else
    let e := Z.log2 a - 52 in
    let q := a / 2 ^ e in
    let r := a mod 2 ^ e in
    let half := 2 ^ (e - 1) in
    let q' := if (half <? r) || ((r =? half) && Z.odd q) then q + 1 else q in
    let m := q' * 2 ^ e in
    if 2 ^ 1024 <=? m then infinity (z <? 0) else int (Z.sgn z * m).

(** A string is the sequence of its code units, for strings whose code
    units are below 256.  The white space [trim] and [parseInt] strip is,
    among these, TAB to CR, the space and the no-break space. *)
Definition isWhiteSpace (c : ascii) : bool :=
  let n := nat_of_ascii c in
  ((n =? 32) || ((9 <=? n) && (n <=? 13)) || (n =? 160))%nat.

Definition digit (c : ascii) : option Z :=
  let n := Z.of_nat (nat_of_ascii c) in
  if (48 <=? n) && (n <=? 57) then Some (n - 48) else None.

Fixpoint trimStart (s : string) : string :=
  match s with
  | String c s' => if isWhiteSpace c then trimStart s' else s
  | EmptyString => s
  end.

(** [s.trimEnd ()] and [s.trim ()] *)
Fixpoint trimEnd (s : string) : string :=
  match s with
  | String c s' =>
      match trimEnd s' with
      | EmptyString =>
          if isWhiteSpace c then EmptyString else String c EmptyString
      | t => String c t
      end
  | EmptyString => s
  end.

Definition trim (s : string) : string := trimEnd (trimStart s).

(** [s.split (sep)] for a separator of one character. *)
Fixpoint split (sep : ascii) (s : string) : list string :=
  match s with
  | String c s' =>
      if Ascii.eqb c sep then EmptyString :: split sep s'
      else
        match split sep s' with
        | piece :: pieces => String c piece :: pieces
        | [] => [String c EmptyString]
        end
  | EmptyString => [EmptyString]
  end.

(** The longest prefix of decimal digits, read left to right; [None] when
    the string does not start with a digit. *)
Fixpoint digits (acc : option Z) (s : string) : option Z :=
  match s with
  | String c s' =>
      match digit c with
      | Some d =>
          digits (Some (10 * match acc with Some a => a | None => 0 end + d)) s'
      | None => acc
      end
  | EmptyString => acc
  end.

(** [parseInt (s, 10)]: leading white space and a sign are skipped, the
    digits that follow are read as an integer, and the result is that
    integer as a double. *)
Definition parseInt10 (s : string) : number :=
  let t := trimStart s in
  let '(sign, body) :=
    match t with
    | String "-"%char r => (-1, r)
    | String "+"%char r => (1, r)
    | _ => (1, t)
    end in
  match digits None body with
  | Some n => toDouble (sign * n)
  | None => NaN
  end.

(** [Math.min (x, c)] with an integer constant [c]. *)
Definition mathMin (x : number) (c : Z) : number :=
  match x with
  | NaN => NaN
  | int z => int (Z.min z c)
  | infinity true => x
  | infinity false => int c
  end.

(** ** Promises and [Promise.allSettled] *)

(** A rejection reason: an object with its [message] property and its
    [String (..)] rendering, or a primitive with its truthiness and
    rendering ([undefined] and [null] are falsy primitives). *)
Inductive reason : Type :=
| object (message : value) (rendering : string)
| primitive (isTruthy : bool) (rendering : string).

(** An entry of the array [Promise.allSettled] resolves to. *)
Inductive settled (A : Type) : Type :=
| fulfilled (v : A)
| rejected (r : reason).
Arguments fulfilled {A} v.
Arguments rejected {A} r.

Definition isRejected {A : Type} (r : settled A) : bool :=
  match r with fulfilled _ => false | rejected _ => true end.

Section AllSettled.
Context {A : Type}.

(** The promise at index [i] settles: its outcome is stored at slot [i]
    of the [values] array. *)
Definition settle (promises : list (settled A))
    (values : list (option (settled A))) (i : nat)
  : list (option (settled A)) :=
  match promises !! i with
  | Some r => <[i := Some r]> values
  | None => values
  end.

(** [order] lists the indices of the promises in the order in which they
    settle.  The combined promise resolves with the [values] array once
    no slot is pending; [None] stands for a promise that stays pending. *)
Definition allSettled (promises : list (settled A)) (order : list nat)
  : option (list (settled A)) :=
  mapM (fun slot => slot)
       (foldl (settle promises) (replicate (length promises) None) order).

(** The state of the [values] array while promises settle: it has one
    slot per promise, and a filled slot holds the outcome of the promise
    at its index. *)
Definition consistent (promises : list (settled A))
    (values : list (option (settled A))) : Prop :=
  length values = length promises /\
  forall i r, values !! i = Some (Some r) -> promises !! i = Some r.
End AllSettled.

End Js.

(* ================================================================== *)
(** * The calendar provider's records *)
(* ================================================================== *)

Module Calendar.

(** The [start] / [end] object of a provider event. *)
Record EventDateTime : Type := {
  date : Js.value;
  dateTime : Js.value
}.

(** A provider event, with the properties the handlers read. *)
Record RawEvent : Type := {
  id : Js.value;
  summary : Js.value;
  location : Js.value;
  description : Js.value;
  start : option EventDateTime;
  end_ : option EventDateTime
}.

(** [resp.data] of [calendar.events.list]. *)
Record ListResponse : Type := {
  items : option (list RawEvent)
}.

End Calendar.

(** [String (r.reason?.message || r.reason || "unknown error")] *)
Definition errorMessage (r : Js.reason) : string :=
  match r with
  | Js.object message rendering =>
      if Js.truthy message then Js.toString message else rendering
  | Js.primitive isTruthy rendering =>
      if isTruthy then rendering else "unknown error"
  end.

(** The rejection reasons of an [allSettled] array, in array order:
    [settled.filter (r => r.status === "rejected").map (..)]. *)
Definition rejections {A : Type} (settled : list (Js.settled A))
  : list string :=
  omap (fun r => match r with
                 | Js.rejected reason => Some (errorMessage reason)
                 | Js.fulfilled _ => None
                 end) settled.

(** The fulfilled values of an [allSettled] array, in array order:
    [settled.filter (r => r.status === "fulfilled").map (r => r.value)]. *)
Definition fulfilments {A : Type} (settled : list (Js.settled A)) : list A :=
  omap (fun r => match r with
                 | Js.fulfilled v => Some v
                 | Js.rejected _ => None
                 end) settled.

(** An [async] callback that awaits the provider call and then maps its
    response: a rejected call rejects the callback with the same reason. *)
Definition thenMap {A B : Type} (f : A -> B) (r : Js.settled A)
  : Js.settled B :=
  match r with
  | Js.fulfilled v => Js.fulfilled (f v)
  | Js.rejected reason => Js.rejected reason
  end.

(** The way a call completes: it returns a value or throws an error with
    a message. *)
Inductive completion (A : Type) : Type :=
| returned (v : A)
| thrown (message : string).
Arguments returned {A} v.
Arguments thrown {A} message.

(** The environment variables [getCalendarIds] reads. *)
Record Env : Type := {
  GOOGLE_CALENDAR_IDS : Js.value;
  GOOGLE_CALENDAR_ID : Js.value
}.

Definition getCalendarIds (env : Env) : completion (list string) :=
  let ids :=
    List.filter (fun s => negb (String.eqb s ""))
      (map Js.trim (Js.split "," (Js.orString (GOOGLE_CALENDAR_IDS env) ""))) in
  match ids with
  | _ :: _ => returned ids
  | [] =>
      if Js.truthy (GOOGLE_CALENDAR_ID env)
      then returned [Js.trim (Js.toString (GOOGLE_CALENDAR_ID env))]
      else thrown "Missing GOOGLE_CALENDAR_IDS (or GOOGLE_CALENDAR_ID)"
  end.

(** The body sent by a handler: [res.json (..)], or
    [res.status (500).json ({ error })] from the [catch] block. *)
Inductive response (A : Type) : Type :=
| json (body : A)
| status500 (error : string).
Arguments json {A} body.
Arguments status500 {A} error.

(** [range: { days, timeMin, timeMax }] *)
Module Range.
Record t : Type := {
  days : Z;
  timeMin : Js.value;
  timeMax : Js.value
}.

(** The range of [days] days from [now]: [timeMin] is
    [now.toUTC ().toISO ()] and [timeMax] is
    [now.plus ({ days }).toUTC ().toISO ()]. *)
Definition window (DateTime : Type) (plus : DateTime -> Z -> DateTime)
    (toUTCISO : DateTime -> Js.value) (now : DateTime) (days : Z) : t :=
  {| days := days;
     timeMin := toUTCISO now;
     timeMax := toUTCISO (plus now days) |}.
End Range.

(** The parameters of one [calendar.events.list] call. *)
Record ListRequest : Type := {
  calendarId : string;
  requestTimeMin : Js.value;
  requestTimeMax : Js.value;
  singleEvents : bool;
  orderBy : string;
  maxResults : Z
}.

(** The provider as one request sees it: the way each [events.list] call
    settles. *)
Definition Provider : Type := ListRequest -> Js.settled Calendar.ListResponse.

(* ================================================================== *)
(** * [GET /events] (src/server.js) *)
(* ================================================================== *)

Module Server.

Record Event : Type := {
  sourceCalendarId : string;
  id : string;
  title : string;
  location : string;
  description : string;
  allDay : bool;
  start : Js.value;
  end_ : Js.value
}.

(** The per-event map of the handler (lines 72-86). *)
Definition normalize (calendarId : string) (e : Calendar.RawEvent) : Event :=
  let start :=
    Js.or (Js.optChain (Calendar.start e) Calendar.dateTime)
          (Js.optChain (Calendar.start e) Calendar.date) in
  let end_ :=
    Js.or (Js.optChain (Calendar.end_ e) Calendar.dateTime)
          (Js.optChain (Calendar.end_ e) Calendar.date) in
  {| sourceCalendarId := calendarId;
     id := calendarId +:+ ":" +:+ Js.toString (Calendar.id e);
     title := Js.orString (Calendar.summary e) "(no title)";
     location := Js.orString (Calendar.location e) "";
     description := Js.orString (Calendar.description e) "";
     allDay := Js.truthy (Js.optChain (Calendar.start e) Calendar.date);
     start := start;
     end_ := end_ |}.

(** The value a per-calendar callback resolves to:
    [{ calendarId, events }]. *)
Module Fetched.
Record t : Type := {
  calendarId : string;
  events : list Event
}.
End Fetched.

(** [resp.data.items || []], mapped. *)
Definition fetched (calendarId : string) (resp : Calendar.ListResponse)
  : Fetched.t :=
  {| Fetched.calendarId := calendarId;
     Fetched.events :=
       map (normalize calendarId)
           (match Calendar.items resp with
            | Some items => items
            | None => []
            end) |}.

Record Body : Type := {
  timezone : string;
  calendarsRequested : list string;
  calendarsSucceeded : list string;
  errors : list string;
  range : Range.t;
  count : nat;
  events : list Event
}.

Section Handler.
(** The collation table behind [localeCompare]. *)
Variable weight : ascii -> N.
(** luxon: the [DateTime] objects, [dt.plus ({ days })] and
    [dt.toUTC ().toISO ()]. *)
Variable DateTime : Type.
Variable plus : DateTime -> Z -> DateTime.
Variable toUTCISO : DateTime -> Js.value.

(** [(a, b) => (a.start || "").localeCompare (b.start || "")] *)
Definition compareStart (a b : Event) : Z :=
  Js.localeCompare weight (Js.orString (start a) "") (Js.orString (start b) "").

(** Lines 50-53.  [plus] rejects a [NaN] amount by throwing, which the
    handler's [catch] turns into the 500 response; of an infinite amount
    the fraction of a day is [NaN], which is rejected the same way. *)
Definition requestRange (queryDays : Js.value) (now : DateTime)
  : completion Range.t :=
  match Js.mathMin (Js.parseInt10 (Js.orString queryDays "30")) 365 with
  | Js.NaN | Js.infinity _ => thrown "Invalid unit value NaN"
  | Js.int days =>
      returned {| Range.days := days;
                  Range.timeMin := toUTCISO now;
                  Range.timeMax := toUTCISO (plus now days) |}
  end.

Definition listRequest (calendarId : string) (r : Range.t) : ListRequest :=
  {| calendarId := calendarId;
     requestTimeMin := Range.timeMin r;
     requestTimeMax := Range.timeMax r;
     singleEvents := true;
     orderBy := "startTime";
     maxResults := 2500 |}.

(** [calendarIds.map (async (calendarId) => ..)]: the promises handed to
    [Promise.allSettled], each with the way it settles. *)
Definition fetches (provider : Provider) (r : Range.t)
    (calendarIds : list string) : list (Js.settled Fetched.t) :=
  map (fun calendarId =>
         thenMap (fetched calendarId) (provider (listRequest calendarId r)))
      calendarIds.

(** [fulfilled.flatMap ((x) => x.events).sort (..)] *)
Definition merge (fulfilled : list Fetched.t) : list Event :=
  Js.sort compareStart (flat_map Fetched.events fulfilled).

(** Lines 92-112: the body built from the settled array. *)
Definition respond (TZ : string) (calendarIds : list string) (r : Range.t)
    (settled : list (Js.settled Fetched.t)) : Body :=
  let errors := rejections settled in
  let fulfilled := fulfilments settled in
  let events := merge fulfilled in
  {| timezone := TZ;
     calendarsRequested := calendarIds;
     calendarsSucceeded := map Fetched.calendarId fulfilled;
     errors := errors;
     range := r;
     count := length events;
     events := events |}.

(** The handler, with credentials in place: [TZ] is the configured
    zone, [configured] the way the call [getCalendarIds ()] completes,
    [now] the request time in [TZ], [provider] the way the calendar calls
    settle and [order] the order in which they do.  An error thrown on the
    way is answered by the [catch] block; [None] stands for a request that
    is never answered because a fetch never settles. *)
Definition getEvents (TZ : string) (configured : completion (list string))
    (queryDays : Js.value) (now : DateTime)
    (provider : Provider) (order : list nat)
  : option (response Body) :=
  match requestRange queryDays now with
  | thrown message => Some (status500 message)
  | returned r =>
      match configured with
      | thrown message => Some (status500 message)
      | returned calendarIds =>
          match Js.allSettled (fetches provider r calendarIds) order with
          | None => None
          | Some settled => Some (json (respond TZ calendarIds r settled))
          end
      end
  end.
End Handler.

End Server.

(* ================================================================== *)
(** * [GET /wall] and [formatEventTime] *)
(* ================================================================== *)

Module Wall.

Record Event : Type := {
  sourceCalendarId : string;
  id : string;
  title : string;
  allDay : bool;
  start : Js.value;
  end_ : Js.value;
  displayTime : string
}.

Record Body : Type := {
  timezone : string;
  calendars : list string;
  days : Z;
  todayKey : Js.value;
  todayCount : nat;
  upcomingCount : nat;
  today : list Event;
  upcoming : list Event;
  errors : list string
}.

Section Handler.
(** The collation table behind [localeCompare]. *)
Variable weight : ascii -> N.
(** luxon: the [DateTime] objects, [dt.plus ({ days })],
    [dt.toUTC ().toISO ()], [DateTime.fromISO (text, { zone: TZ })],
    [dt.isValid], [dt.toISODate ()] and [dt.toFormat (fmt)]. *)
Variable DateTime : Type.
Variable plus : DateTime -> Z -> DateTime.
Variable toUTCISO : DateTime -> Js.value.
Variable fromISO : Js.value -> DateTime.
Variable isValid : DateTime -> bool.
Variable toISODate : DateTime -> Js.value.
Variable toFormat : DateTime -> string -> string.

Definition formatEventTime (startIso : Js.value) (allDay : bool) : string :=
  if allDay then "All day"
  else
    let dt := fromISO startIso in
    if isValid dt then toFormat dt "h:mm a" else "".

(** The per-event map of the handler (lines 248-262). *)
Definition normalize (calendarId : string) (e : Calendar.RawEvent) : Event :=
  let start :=
    Js.or (Js.optChain (Calendar.start e) Calendar.dateTime)
          (Js.optChain (Calendar.start e) Calendar.date) in
  let end_ :=
    Js.or (Js.optChain (Calendar.end_ e) Calendar.dateTime)
          (Js.optChain (Calendar.end_ e) Calendar.date) in
  let allDay := Js.truthy (Js.optChain (Calendar.start e) Calendar.date) in
  {| sourceCalendarId := calendarId;
     id := calendarId +:+ ":" +:+ Js.toString (Calendar.id e);
     title := Js.orString (Calendar.summary e) "(no title)";
     allDay := allDay;
     start := start;
     end_ := end_;
     displayTime := formatEventTime start allDay |}.

(** [resp.data.items || []], mapped: the value a per-calendar callback
    resolves to. *)
Definition fetched (calendarId : string) (resp : Calendar.ListResponse)
  : list Event :=
  map (normalize calendarId)
      (match Calendar.items resp with Some items => items | None => [] end).

(** [(a, b) => (a.start || "").localeCompare (b.start || "")] *)
Definition compareStart (a b : Event) : Z :=
  Js.localeCompare weight (Js.orString (start a) "") (Js.orString (start b) "").

(** Lines 226-230. *)
Definition requestRange (queryDays : Js.value) (now : DateTime)
  : completion Range.t :=
  match Js.mathMin (Js.parseInt10 (Js.orString queryDays "10")) 60 with
  | Js.NaN | Js.infinity _ => thrown "Invalid unit value NaN"
  | Js.int days =>
      returned {| Range.days := days;
                  Range.timeMin := toUTCISO now;
                  Range.timeMax := toUTCISO (plus now days) |}
  end.

Definition listRequest (calendarId : string) (r : Range.t) : ListRequest :=
  {| calendarId := calendarId;
     requestTimeMin := Range.timeMin r;
     requestTimeMax := Range.timeMax r;
     singleEvents := true;
     orderBy := "startTime";
     maxResults := 2500 |}.

(** [startDt.isValid ? startDt.toISODate () : ""] *)
Definition startKey (e : Event) : Js.value :=
  let startDt := fromISO (start e) in
  if isValid startDt then toISODate startDt else Js.str "".

(** [startKey === todayKey] *)
Definition strictEquals (a b : Js.value) : bool :=
  match a, b with
  | Js.undefined, Js.undefined => true
  | Js.null, Js.null => true
  | Js.str x, Js.str y => String.eqb x y
  | _, _ => false
  end.

(** The [for .. of] loop of lines 279-284: one step pushes the event on
    one of the two arrays. *)
Definition bucket (todayKey : Js.value) (acc : list Event * list Event)
    (e : Event) : list Event * list Event :=
  let '(today, upcoming) := acc in
  if strictEquals (startKey e) todayKey
  then (today ++ [e], upcoming)
  else (today, upcoming ++ [e]).

Definition partition (todayKey : Js.value) (events : list Event)
  : list Event * list Event :=
  foldl (bucket todayKey) ([], []) events.

(** [calendarIds.map (async (calendarId) => ..)]: the promises handed to
    [Promise.allSettled], each with the way it settles. *)
Definition fetches (provider : Provider) (r : Range.t)
    (calendarIds : list string) : list (Js.settled (list Event)) :=
  map (fun calendarId =>
         thenMap (fetched calendarId) (provider (listRequest calendarId r)))
      calendarIds.

(** [settled.filter (..).flatMap ((r) => r.value).sort (..)] *)
Definition merge (settled : list (Js.settled (list Event))) : list Event :=
  Js.sort compareStart (flat_map (fun value => value) (fulfilments settled)).

(** Lines 266-296: the body built from the settled array. *)
Definition respond (TZ : string) (calendarIds : list string) (r : Range.t)
    (now : DateTime) (settled : list (Js.settled (list Event))) : Body :=
  let errors := rejections settled in
  let events := merge settled in
  let todayKey := toISODate now in
  let '(today, upcoming) := partition todayKey events in
  {| timezone := TZ;
     calendars := calendarIds;
     days := Range.days r;
     todayKey := todayKey;
     todayCount := length today;
     upcomingCount := length upcoming;
     today := today;
     upcoming := upcoming;
     errors := errors |}.

(** The handler, for a configured service; the arguments are those of
    [Server.getEvents]. *)
Definition getWall (TZ : string) (configured : completion (list string))
    (queryDays : Js.value) (now : DateTime)
    (provider : Provider) (order : list nat)
  : option (response Body) :=
  match requestRange queryDays now with
  | thrown message => Some (status500 message)
  | returned r =>
      match configured with
      | thrown message => Some (status500 message)
      | returned calendarIds =>
          match Js.allSettled (fetches provider r calendarIds) order with
          | None => None
          | Some settled => Some (json (respond TZ calendarIds r now settled))
          end
      end
  end.
End Handler.

End Wall.

(* ================================================================== *)
(** * Properties named by the specification *)
(* ================================================================== *)

Module Spec.

(** Lexicographic order on strings over the collation order of their
    characters: the empty string is least, the first differing position
    decides, a proper prefix comes first. *)
Inductive lexLe (weight : ascii -> N) : string -> string -> Prop :=
| lexLe_empty b : lexLe weight EmptyString b
| lexLe_less x a y b :
    (weight x < weight y)%N -> lexLe weight (String x a) (String y b)
| lexLe_next x a y b :
    weight x = weight y -> lexLe weight a b ->
    lexLe weight (String x a) (String y b).

(** The sort key of an event: its [start], a missing one read as the
    empty string. *)
Definition startOrEmpty (v : Js.value) : string := Js.orString v "".

(** [a <= b] on strings, "lexicographic string comparison": the order of
    the code units decides. *)
Definition codeUnitLe : string -> string -> Prop := lexLe N_of_ascii.


(** "The computed range has timeMax earlier than timeMin": both ends are
    timestamps and the one of [timeMax] is the earlier.  The two are
    written by [toISO] in UTC, where timestamps of the same length follow
    one another as their instants do. *)
Definition timeMaxEarlier (r : Range.t) : Prop :=
  exists tmin tmax,
    Range.timeMin r = Js.str tmin /\ Range.timeMax r = Js.str tmax /\
    tmax <> tmin /\ codeUnitLe tmax tmin.

(** A string property that is there: a non-empty string. *)
Definition present (v : Js.value) : Prop := Js.truthy v = true.

(** A string property that is not there at all. *)
Definition absent (v : Js.value) : Prop := v = Js.undefined \/ v = Js.null.

(** "The time-of-day value if present, else the date-only value if
    present, else absent": what [v] must be for the raw [start] or [end]
    object [o].  Without the object, and without either value, there is
    nothing to select: [v] is then [undefined], respectively the falsy
    content of the date-only property. *)
Definition selected (o : option Calendar.EventDateTime) (v : Js.value) : Prop :=
  match o with
  | None => v = Js.undefined
  | Some t =>
      (present (Calendar.dateTime t) -> v = Calendar.dateTime t) /\
      (~ present (Calendar.dateTime t) -> present (Calendar.date t) ->
       v = Calendar.date t) /\
      (~ present (Calendar.dateTime t) -> ~ present (Calendar.date t) ->
       ~ present v /\ v = Calendar.date t)
  end.

(** "Events with a missing start sort last": no event with a start value
    comes after an event without one. *)
Definition missingStartLast (events : list Server.Event) : Prop :=
  forall i j ei ej,
    events !! i = Some ei -> events !! j = Some ej ->
    absent (Server.start ei) -> present (Server.start ej) ->
    (j < i)%nat.

(** What the code does instead: the events without a start come first. *)
Definition missingStartFirst (events : list Server.Event) : Prop :=
  forall i j ei ej,
    events !! i = Some ei -> events !! j = Some ej ->
    Js.truthy (Server.start ei) = false -> present (Server.start ej) ->
    (i < j)%nat.

(** The entries of [xs] selected by [f], listed in the order in which the
    promises at their indices settled. *)
Definition inCompletionOrder {A B : Type} (f : A -> option B)
    (xs : list A) (order : list nat) : list B :=
  omap (fun i => xs !! i ≫= f) order.

(** A schedule under which every one of [n] promises settles. *)
Definition settlesAll (n : nat) (order : list nat) : Prop :=
  Forall (fun i => i ∈ order) (seq 0 n).

(** [resp.data.items || []] *)
Definition itemsOf (resp : Calendar.ListResponse) : list Calendar.RawEvent :=
  match Calendar.items resp with
  | Some items => items
  | None => []
  end.

(** The normalized events a calendar contributes under [GET /events]:
    those of its response when its fetch succeeds, none when it fails. *)
Definition contribution (provider : Provider) (r : Range.t)
    (calendarId : string) : list Server.Event :=
  match provider (Server.listRequest calendarId r) with
  | Js.fulfilled resp => map (Server.normalize calendarId) (itemsOf resp)
  | Js.rejected _ => []
  end.

(** Whether the fetch of a calendar fails under [GET /events]. *)
Definition fails (provider : Provider) (r : Range.t)
    (calendarId : string) : bool :=
  Js.isRejected (provider (Server.listRequest calendarId r)).

(** The calendar id, when its fetch succeeds. *)
Definition succeededId (provider : Provider) (r : Range.t)
    (calendarId : string) : option string :=
  if fails provider r calendarId then None else Some calendarId.

(** The error message, when the fetch of the calendar fails. *)
Definition failureMessage (provider : Provider) (r : Range.t)
    (calendarId : string) : option string :=
  match provider (Server.listRequest calendarId r) with
  | Js.fulfilled _ => None
  | Js.rejected reason => Some (errorMessage reason)
  end.

(** The event starts on the calendar date of the request: its [start]
    parses in the configured zone, to a time whose calendar date there is
    that of [now]. *)
Definition startsOnDateOf {DateTime : Type} (fromISO : Js.value -> DateTime)
    (isValid : DateTime -> bool) (toISODate : DateTime -> Js.value)
    (now : DateTime) (e : Wall.Event) : Prop :=
  isValid (fromISO (Wall.start e)) = true /\
  toISODate (fromISO (Wall.start e)) = toISODate now.

(** The string contains the separator of the canonical id. *)
Definition hasSeparator (s : string) : Prop :=
  ":"%char ∈ list_ascii_of_string s.

End Spec.

(* ================================================================== *)
(** * A reference host: collation and luxon in the zone UTC *)
(* ================================================================== *)

(** A small executable model of the host operations the handlers take as
    parameters, on which the theorems below are exercised: collation by
    code unit and collation as ICU ranks the characters of timestamps, and
    the luxon operations for a zone without offset, on timestamps written
    [YYYY-MM-DD] or [YYYY-MM-DDThh:mm:ssZ]. *)
Module Reference.

Definition codeUnit (c : ascii) : N := N_of_ascii c.

(** The characters of an ISO-8601 timestamp, in the order in which the
    collation that [localeCompare] applies by default (the root collation
    of ICU) ranks them: punctuation, then symbols, then digits, then
    letters.  The hyphen comes before the plus sign there, although its
    code unit is the greater of the two. *)
Definition rootOrder : string := "-:.+0123456789TZ".

Fixpoint position (c : ascii) (s : string) : option N :=
  match s with
  | String x s' =>
      if Ascii.eqb x c then Some 0%N else option_map N.succ (position c s')
  | EmptyString => None
  end.

(** The rank of a character of a timestamp; any other character is put
    after these, by code unit. *)
Definition rootCollation (c : ascii) : N :=
  match position c rootOrder with
  | Some i => i
  | None => (256 + N_of_ascii c)%N
  end.

(** A [DateTime] is an instant in epoch milliseconds, or invalid. *)
Definition DateTime : Type := option Z.

Definition msPerDay : Z := 86400000.

(** The largest instant a date can hold, in milliseconds either way. *)
Definition maxInstant : Z := 8640000000000000.

Definition make (ms : Z) : DateTime :=
  if (Z.abs ms <=? maxInstant) then Some ms else None.

Definition plus (dt : DateTime) (days : Z) : DateTime :=
  match dt with
  | Some ms => make (ms + days * msPerDay)
  | None => None
  end.

Definition isValid (dt : DateTime) : bool :=
  match dt with Some _ => true | None => false end.

(** Days since the epoch to year, month, day (proleptic Gregorian). *)
Definition civilFromDays (z0 : Z) : Z * Z * Z :=
  let z := z0 + 719468 in
  let era := z / 146097 in
  let doe := z - era * 146097 in
  let yoe := (doe - doe / 1460 + doe / 36524 - doe / 146096) / 365 in
  let doy := doe - (365 * yoe + yoe / 4 - yoe / 100) in
  let mp := (5 * doy + 2) / 153 in
  let d := doy - (153 * mp + 2) / 5 + 1 in
  let m := if mp <? 10 then mp + 3 else mp - 9 in
  (yoe + era * 400 + (if m <=? 2 then 1 else 0), m, d).

Definition daysFromCivil (y0 m d : Z) : Z :=
  let y := if m <=? 2 then y0 - 1 else y0 in
  let era := y / 400 in
  let yoe := y - era * 400 in
  let doy := (153 * (if 2 <? m then m - 3 else m + 9) + 2) / 5 + d - 1 in
  let doe := yoe * 365 + yoe / 4 - yoe / 100 + doy in
  era * 146097 + doe - 719468.

Definition digitChar (d : Z) : ascii := ascii_of_nat (48 + Z.to_nat d).

(** The last [k] decimal digits of [n], zero-padded. *)
Fixpoint pad (k : nat) (n : Z) : string :=
  match k with
  | O => ""
  | S k' => pad k' (n / 10) +:+ String (digitChar (n mod 10)) ""
  end.

Definition isoDate (ms : Z) : string :=
  let '(y, m, d) := civilFromDays (ms / msPerDay) in
  pad 4 y +:+ "-" +:+ pad 2 m +:+ "-" +:+ pad 2 d.

Definition toISODate (dt : DateTime) : Js.value :=
  match dt with
  | Some ms => Js.str (isoDate ms)
  | None => Js.null
  end.

Definition toUTCISO (dt : DateTime) : Js.value :=
  match dt with
  | Some ms =>
      let t := ms mod msPerDay in
      Js.str (isoDate ms +:+ "T" +:+ pad 2 (t / 3600000) +:+ ":"
              +:+ pad 2 (t / 60000 mod 60) +:+ ":"
              +:+ pad 2 (t / 1000 mod 60) +:+ "."
              +:+ pad 3 (t mod 1000) +:+ "Z")
  | None => Js.null
  end.

(** ["h:mm a"]: the hour on the twelve-hour clock, the minutes on two
    digits and the meridiem. *)
Definition toFormat (dt : DateTime) (fmt : string) : string :=
  match dt with
  | Some ms =>
      let t := ms mod msPerDay in
      let h := t / 3600000 in
      let h12 := if h mod 12 =? 0 then 12 else h mod 12 in
      (if h12 <? 10 then pad 1 h12 else pad 2 h12) +:+ ":"
      +:+ pad 2 (t / 60000 mod 60) +:+ (if h <? 12 then " AM" else " PM")
  | None => "Invalid DateTime"
  end.

(** The number written on [len] digits at position [pos] of [s]. *)
Definition field (s : string) (pos len : nat) : option Z :=
  let t := String.substring pos len s in
  if (String.length t =? len)%nat then Js.digits None t else None.

Definition charAt (s : string) (pos : nat) (c : ascii) : bool :=
  match String.get pos s with
  | Some x => Ascii.eqb x c
  | None => false
  end.

Definition fromISO (text : Js.value) : DateTime :=
  match text with
  | Js.str s =>
      match field s 0 4, field s 5 2, field s 8 2 with
      | Some y, Some m, Some d =>
          if charAt s 4 "-" && charAt s 7 "-"
             && (1 <=? m) && (m <=? 12) && (1 <=? d) && (d <=? 31)
          then
            let day := daysFromCivil y m d * msPerDay in
            if (String.length s =? 10)%nat then make day
            else
              match field s 11 2, field s 14 2, field s 17 2 with
              | Some hh, Some mm, Some ss =>
                  if (String.length s =? 20)%nat && charAt s 10 "T"
                     && charAt s 13 ":" && charAt s 16 ":" && charAt s 19 "Z"
                     && (hh <? 24) && (mm <? 60) && (ss <? 60)
                  then make (day + hh * 3600000 + mm * 60000 + ss * 1000)
                  else None
              | _, _, _ => None
              end
          else None
      | _, _, _ => None
      end
  | _ => None
  end.

End Reference.

(* ================================================================== *)
(** * Concrete requests *)
(* ================================================================== *)

(** Provider data and request times on which the handlers are run with
    the reference host. *)
Module Examples.

Definition now : Reference.DateTime :=
  Reference.fromISO (Js.str "2024-03-01T09:00:00Z").

Definition timed : Calendar.RawEvent :=
  {| Calendar.id := Js.str "evt1";
     Calendar.summary := Js.str "Standup";
     Calendar.location := Js.str "Room 2";
     Calendar.description := Js.undefined;
     Calendar.start :=
       Some {| Calendar.date := Js.undefined;
               Calendar.dateTime := Js.str "2024-03-01T09:00:00Z" |};
     Calendar.end_ :=
       Some {| Calendar.date := Js.undefined;
               Calendar.dateTime := Js.str "2024-03-01T09:30:00Z" |} |}.

Definition allDay : Calendar.RawEvent :=
  {| Calendar.id := Js.str "evt1";
     Calendar.summary := Js.undefined;
     Calendar.location := Js.undefined;
     Calendar.description := Js.undefined;
     Calendar.start :=
       Some {| Calendar.date := Js.str "2024-03-01";
               Calendar.dateTime := Js.undefined |};
     Calendar.end_ :=
       Some {| Calendar.date := Js.str "2024-03-02";
               Calendar.dateTime := Js.undefined |} |}.

Definition tomorrow : Calendar.RawEvent :=
  {| Calendar.id := Js.str "evt3";
     Calendar.summary := Js.str "Dentist";
     Calendar.location := Js.undefined;
     Calendar.description := Js.undefined;
     Calendar.start :=
       Some {| Calendar.date := Js.undefined;
               Calendar.dateTime := Js.str "2024-03-02T15:45:00Z" |};
     Calendar.end_ := None |}.

Definition noStart : Calendar.RawEvent :=
  {| Calendar.id := Js.str "evt2";
     Calendar.summary := Js.str "";
     Calendar.location := Js.undefined;
     Calendar.description := Js.undefined;
     Calendar.start := None;
     Calendar.end_ := None |}.



Definition withId (id : string) : Calendar.RawEvent :=
  {| Calendar.id := Js.str id;
     Calendar.summary := Js.undefined;
     Calendar.location := Js.undefined;
     Calendar.description := Js.undefined;
     Calendar.start := None;
     Calendar.end_ := None |}.

(** The range of a request without a [days] parameter under
    [GET /events]. *)
Definition thirtyDays : Range.t :=
  {| Range.days := 30;
     Range.timeMin := Reference.toUTCISO now;
     Range.timeMax := Reference.toUTCISO (Reference.plus now 30) |}.

(** The same under [GET /wall]. *)
Definition tenDays : Range.t :=
  {| Range.days := 10;
     Range.timeMin := Reference.toUTCISO now;
     Range.timeMax := Reference.toUTCISO (Reference.plus now 10) |}.

Definition returns (items : list Calendar.RawEvent)
  : Js.settled Calendar.ListResponse :=
  Js.fulfilled {| Calendar.items := Some items |}.

(** Calendar [A] fails with a network error, every other one returns the
    all-day event. *)
Definition firstFails : Provider :=
  fun request =>
    if String.eqb (calendarId request) "A"
    then Js.rejected (Js.object (Js.str "network down") "Error: network down")
    else returns [allDay].

(** Calendar [A] returns the timed event, every other one the all-day
    event. *)
Definition bothSucceed : Provider :=
  fun request =>
    if String.eqb (calendarId request) "A"
    then returns [timed]
    else returns [allDay].

(** Every calendar returns the all-day event, then an event without a
    start, then the event of the next day. *)
Definition oneWithoutStart : Provider :=
  fun _ => returns [allDay; noStart; tomorrow].


(** Calendar [A] is over quota, every other one is not found. *)
Definition bothFail : Provider :=
  fun request =>
    if String.eqb (calendarId request) "A"
    then Js.rejected
           (Js.object (Js.str "quota exceeded") "Error: quota exceeded")
    else Js.rejected (Js.object (Js.str "not found") "Error: not found").

(** The environment lists the calendars [A] and [B]. *)
Definition twoCalendars : Env :=
  {| GOOGLE_CALENDAR_IDS := Js.str "A, B";
     GOOGLE_CALENDAR_ID := Js.undefined |}.

(** The environment names the single calendar [A], the older way. *)
Definition oneCalendar : Env :=
  {| GOOGLE_CALENDAR_IDS := Js.undefined;
     GOOGLE_CALENDAR_ID := Js.str "A" |}.

(** [GET /events] on the reference host. *)
Definition getEvents :=
  Server.getEvents Reference.codeUnit Reference.DateTime Reference.plus
                   Reference.toUTCISO.


(** [GET /wall] on the reference host. *)
Definition getWall :=
  Wall.getWall Reference.codeUnit Reference.DateTime Reference.plus
               Reference.toUTCISO Reference.fromISO Reference.isValid
               Reference.toISODate Reference.toFormat.

End Examples.

(* ================================================================== *)
(** * The earlier single-calendar [GET /events] *)
(* ================================================================== *)

(** The handler of the first version of the server, which reads one
    calendar named by [GOOGLE_CALENDAR_ID] and has no fan-out. *)
Module Legacy.

Record Event : Type := {
  id : Js.value;
  title : string;
  location : string;
  description : string;
  allDay : bool;
  start : Js.value;
  end_ : Js.value
}.

(** The per-event map of the handler ("Normalize shape for display"). *)
Definition normalize (e : Calendar.RawEvent) : Event :=
  let start :=
    Js.or (Js.optChain (Calendar.start e) Calendar.dateTime)
          (Js.optChain (Calendar.start e) Calendar.date) in
  let end_ :=
    Js.or (Js.optChain (Calendar.end_ e) Calendar.dateTime)
          (Js.optChain (Calendar.end_ e) Calendar.date) in
  {| id := Calendar.id e;
     title := Js.orString (Calendar.summary e) "(no title)";
     location := Js.orString (Calendar.location e) "";
     description := Js.orString (Calendar.description e) "";
     allDay := Js.truthy (Js.optChain (Calendar.start e) Calendar.date);
     start := start;
     end_ := end_ |}.

Record Body : Type := {
  timezone : string;
  range : Range.t;
  count : nat;
  events : list Event
}.

(** The [catch] block on a rejected fetch:
    [res.status (500).json ({ error: err.message || String (err) })].
    A primitive has no [message]; reading [message] off [undefined] or
    [null] throws inside the block, and then nothing is sent. *)
Definition caught (reason : Js.reason) : option (response Body) :=
  match reason with
  | Js.object message rendering =>
      Some (status500 (if Js.truthy message then Js.toString message
                       else rendering))
  | Js.primitive isTruthy rendering =>
      if negb isTruthy
         && (String.eqb rendering "undefined" || String.eqb rendering "null")
      then None
      else Some (status500 rendering)
  end.

Section Handler.
Variable DateTime : Type.
Variable plus : DateTime -> Z -> DateTime.
Variable toUTCISO : DateTime -> Js.value.

(** The handler, with credentials in place: [calendarIdVar] is the
    environment variable [GOOGLE_CALENDAR_ID], read as it is; the range is
    computed by the very lines of the later versions. *)
Definition getEvents (TZ : string) (calendarIdVar : Js.value)
    (queryDays : Js.value) (now : DateTime) (provider : Provider)
  : option (response Body) :=
  if Js.truthy calendarIdVar then
    match Server.requestRange DateTime plus toUTCISO queryDays now with
    | thrown message => Some (status500 message)
    | returned r =>
        match provider (Server.listRequest (Js.toString calendarIdVar) r) with
        | Js.rejected reason => caught reason
        | Js.fulfilled resp =>
            let events :=
              map normalize
                  (match Calendar.items resp with
                   | Some items => items
                   | None => []
                   end) in
            Some (json {| timezone := TZ;
                          range := r;
                          count := length events;
                          events := events |})
        end
    end
  else Some (status500 "Missing GOOGLE_CALENDAR_ID").
End Handler.

End Legacy.

(* ================================================================== *)
(** * Further properties named in the proofs *)
(* ================================================================== *)

Module Properties.

(** The calendar ids written the way [GOOGLE_CALENDAR_IDS] lists them:
    separated by commas. *)
Fixpoint joinIds (ids : list string) : string :=
  match ids with
  | [] => ""
  | [id] => id
  | id :: rest => id +:+ "," +:+ joinIds rest
  end.

(** A calendar id as [getCalendarIds] returns it from the list: not
    empty, without white space around it and without a comma. *)
Definition cleanId (id : string) : Prop :=
  id <> "" /\ Js.trim id = id /\ ","%char ∉ list_ascii_of_string id.

(** The entries of [GOOGLE_CALENDAR_IDS] that are left after trimming
    and dropping the empty ones. *)
Definition listed (env : Env) : list string :=
  List.filter (fun s => negb (String.eqb s ""))
    (map Js.trim (Js.split "," (Js.orString (GOOGLE_CALENDAR_IDS env) ""))).

(** The variable [GOOGLE_CALENDAR_IDS] names no calendar: it is unset, or
    holds nothing but commas and white space. *)
Definition namesNoCalendar (v : Js.value) : Prop :=
  Forall (fun c => c = ","%char \/ Js.isWhiteSpace c = true)
         (list_ascii_of_string (Js.orString v "")).

(** The event's sort key compares equal to [key]. *)
Definition tiedWith (weight : ascii -> N) (key : string) (e : Server.Event)
  : bool :=
  Js.localeCompare weight (Spec.startOrEmpty (Server.start e)) key =? 0.

(** What the flat view and the wall view both say of an event. *)
Record Listing : Type := {
  sourceCalendarId : string;
  id : string;
  title : string;
  allDay : bool;
  start : Js.value;
  end_ : Js.value
}.

Definition ofServer (e : Server.Event) : Listing :=
  {| sourceCalendarId := Server.sourceCalendarId e;
     id := Server.id e;
     title := Server.title e;
     allDay := Server.allDay e;
     start := Server.start e;
     end_ := Server.end_ e |}.

Definition ofWall (e : Wall.Event) : Listing :=
  {| sourceCalendarId := Wall.sourceCalendarId e;
     id := Wall.id e;
     title := Wall.title e;
     allDay := Wall.allDay e;
     start := Wall.start e;
     end_ := Wall.end_ e |}.

(** The way the multi-calendar handler presents an event of the
    single-calendar one: with its calendar, and the calendar id in front
    of its id. *)
Definition upgraded (calendarId : string) (e : Legacy.Event) : Server.Event :=
  {| Server.sourceCalendarId := calendarId;
     Server.id := calendarId +:+ ":" +:+ Js.toString (Legacy.id e);
     Server.title := Legacy.title e;
     Server.location := Legacy.location e;
     Server.description := Legacy.description e;
     Server.allDay := Legacy.allDay e;
     Server.start := Legacy.start e;
     Server.end_ := Legacy.end_ e |}.

(** The number of provider events of the calendars whose fetch
    succeeds. *)
Definition fetchedCount (provider : Provider) (r : Range.t)
    (calendarIds : list string) : nat :=
  length (flat_map (fun calendarId =>
                      match provider (Server.listRequest calendarId r) with
                      | Js.fulfilled resp => Spec.itemsOf resp
                      | Js.rejected _ => []
                      end) calendarIds).

(** The events a calendar contributes under [GET /wall]. *)
Definition wallContribution {DateTime : Type} (fromISO : Js.value -> DateTime)
    (isValid : DateTime -> bool) (toFormat : DateTime -> string -> string)
    (provider : Provider) (r : Range.t) (calendarId : string)
  : list Wall.Event :=
  match provider (Wall.listRequest calendarId r) with
  | Js.fulfilled resp =>
      map (Wall.normalize DateTime fromISO isValid toFormat calendarId)
          (Spec.itemsOf resp)
  | Js.rejected _ => []
  end.

(** The sort order of the wall view, on the keys of the events. *)
Definition wallOrder (weight : ascii -> N) (e1 e2 : Wall.Event) : Prop :=
  Spec.lexLe weight (Spec.startOrEmpty (Wall.start e1))
                    (Spec.startOrEmpty (Wall.start e2)).

(** Another order of completion for two fetches. *)
Definition inRequestOrder : list nat := [0; 1]%nat.

End Properties.

(* ================================================================== *)
(** * Facts about the JavaScript primitives *)
(* ================================================================== *)

Module JsFacts.

Lemma truthy_str s : Js.truthy (Js.str s) = true <-> s <> "".
Proof.
  simpl. destruct (String.eqb_spec s "") as [->|Hne]; simpl; split; congruence.
Qed.

Lemma orString_truthy v d : Js.truthy v = true -> Js.str (Js.orString v d) = v.
Proof.
  destruct v as [| |s]; simpl; try discriminate.
  destruct (String.eqb s ""); simpl; [discriminate | reflexivity].
Qed.

Lemma orString_falsy v d : Js.truthy v = false -> Js.orString v d = d.
Proof.
  destruct v as [| |s]; simpl; try reflexivity.
  destruct (String.eqb s ""); simpl; [reflexivity | discriminate].
Qed.

Example parseInt10_examples :
  Js.parseInt10 "-5" = Js.int (-5) /\ Js.parseInt10 "  +12abc" = Js.int 12 /\
  Js.parseInt10 "400" = Js.int 400 /\ Js.parseInt10 "1.9" = Js.int 1 /\
  Js.parseInt10 "abc" = Js.NaN /\ Js.parseInt10 "-" = Js.NaN /\
  Js.parseInt10 "" = Js.NaN.
Proof. repeat split. Qed.

(** Beyond 2^53 [parseInt] gives the nearest double: 2^53 + 1 reads as
    2^53, [-1e23] as the double printed [-1e+23], and a number of four
    hundred digits as an infinity. *)
Example parseInt10_rounds :
  Js.parseInt10 "9007199254740993" = Js.int 9007199254740992 /\
  Js.parseInt10 "9007199254740995" = Js.int 9007199254740996 /\
  Js.parseInt10 "-100000000000000000000000"
  = Js.int (-99999999999999991611392) /\
  Js.parseInt10 ("-1" +:+ string_of_list_ascii (repeat "0"%char 400))
  = Js.infinity true /\
  Js.mathMin (Js.infinity true) 365 = Js.infinity true /\
  Js.mathMin (Js.infinity false) 365 = Js.int 365.
Proof. repeat split; vm_compute; reflexivity. Qed.

(** The no-break space is white space for [trim] and [parseInt]. *)
Example no_break_space_is_trimmed :
  let nbsp := String (ascii_of_nat 160) "" in
  Js.trim (nbsp +:+ "A" +:+ nbsp) = "A" /\
  Js.trim (nbsp +:+ " " +:+ nbsp) = "" /\
  Js.parseInt10 (nbsp +:+ "7") = Js.int 7.
Proof. repeat split. Qed.

(** In the order of the code units the plus sign comes before the hyphen;
    in the collation of the host it comes after. *)
Example localeCompare_offsets :
  Js.localeCompare Reference.codeUnit
    "2024-03-01T09:00:00+01:00" "2024-03-01T09:00:00-05:00" = -1 /\
  Js.localeCompare Reference.rootCollation
    "2024-03-01T09:00:00+01:00" "2024-03-01T09:00:00-05:00" = 1 /\
  Js.localeCompare Reference.rootCollation
    "2024-03-01" "2024-03-01T09:00:00Z" = -1 /\
  Js.localeCompare Reference.rootCollation
    "2024-03-01T09:00:00Z" "2024-03-02" = -1.
Proof. repeat split. Qed.

Example localeCompare_date_before_time :
  Js.localeCompare Reference.codeUnit "2024-03-01" "2024-03-01T09:00:00Z" = -1 /\
  Js.localeCompare Reference.codeUnit "" "2024-03-01" = -1 /\
  Js.localeCompare Reference.codeUnit "2024-03-02" "2024-03-01T09:00:00Z" = 1.
Proof. repeat split. Qed.

Example sort_is_stable :
  Js.sort (fun a b : Z * string => fst a - fst b)
          [(2, "a"); (1, "b"); (2, "c"); (1, "d")]
  = [(1, "b"); (1, "d"); (2, "a"); (2, "c")].
Proof. reflexivity. Qed.

Example allSettled_keeps_request_order :
  Js.allSettled [Js.fulfilled "a"; Js.rejected (Js.primitive false "");
                 Js.fulfilled "c"] [2; 0; 1]%nat
  = Some [Js.fulfilled "a"; Js.rejected (Js.primitive false "");
          Js.fulfilled "c"] /\
  Js.allSettled [Js.fulfilled "a"; Js.fulfilled "b"] [1]%nat = None.
Proof. split; reflexivity. Qed.

Section Collation.
Variable weight : ascii -> N.

Lemma localeCompare_range a b :
  Js.localeCompare weight a b = -1 \/ Js.localeCompare weight a b = 0
  \/ Js.localeCompare weight a b = 1.
Proof.
  revert b. induction a as [|x a IH]; intros [|y b]; simpl; auto.
  destruct (weight x ?= weight y)%N; auto.
Qed.

Lemma localeCompare_lexLe a b :
  Js.localeCompare weight a b <= 0 <-> Spec.lexLe weight a b.
Proof.
  revert b. induction a as [|x a IH]; intros [|y b]; simpl.
  - split; [constructor | lia].
  - split; [constructor | lia].
  - split; [lia | inversion 1].
  - destruct (N.compare_spec (weight x) (weight y)) as [Heq|Hlt|Hgt].
    + rewrite IH. split.
      * now constructor 3.
      * inversion 1; subst; [lia | assumption].
    + split; [now constructor 2 | lia].
    + split; [lia | inversion 1; subst; lia].
Qed.

Lemma localeCompare_flip a b :
  Js.localeCompare weight b a = - Js.localeCompare weight a b.
Proof.
  revert b. induction a as [|x a IH]; intros [|y b]; simpl; try reflexivity.
  rewrite (N.compare_antisym (weight x) (weight y)).
  destruct (weight x ?= weight y)%N; simpl; auto.
Qed.

Lemma localeCompare_trans a b c :
  Js.localeCompare weight a b <= 0 -> Js.localeCompare weight b c <= 0 ->
  Js.localeCompare weight a c <= 0.
Proof.
  revert b c. induction a as [|x a IH]; intros [|y b] [|z c]; simpl; try lia.
  destruct (N.compare_spec (weight x) (weight y)) as [Hxy|Hxy|Hxy];
    destruct (N.compare_spec (weight y) (weight z)) as [Hyz|Hyz|Hyz];
    destruct (N.compare_spec (weight x) (weight z)) as [Hxz|Hxz|Hxz];
    try lia.
  apply IH.
Qed.

Lemma localeCompare_empty_r a :
  a <> "" -> Js.localeCompare weight a "" = 1.
Proof. destruct a; [congruence | reflexivity]. Qed.
End Collation.

Section Sort.
Context {A : Type}.
Variable comparefn : A -> A -> Z.

Lemma insert_Permutation x l : Js.insert comparefn x l ≡ₚ x :: l.
Proof.
  induction l as [|y l IH]; simpl; [reflexivity|].
  destruct (comparefn x y <=? 0); [reflexivity|].
  rewrite IH. apply perm_swap.
Qed.

Lemma sort_Permutation l : Js.sort comparefn l ≡ₚ l.
Proof.
  induction l as [|x l IH]; simpl; [reflexivity|].
  rewrite insert_Permutation. now apply perm_skip.
Qed.

(** A consistent comparison function: any two elements are comparable
    and the order is transitive. *)
Hypothesis comparefn_total :
  forall a b, 0 < comparefn a b -> comparefn b a <= 0.
Hypothesis comparefn_trans :
  forall a b c, comparefn a b <= 0 -> comparefn b c <= 0 -> comparefn a c <= 0.

Abbreviation le := (Js.ascending comparefn).

Lemma insert_HdRel x y l :
  le y x -> HdRel le y l -> HdRel le y (Js.insert comparefn x l).
Proof.
  intros Hyx Hhd. destruct l as [|z l]; simpl; [now constructor|].
  destruct (comparefn x z <=? 0); constructor; auto.
  now inversion Hhd.
Qed.

Lemma insert_Sorted x l : Sorted le l -> Sorted le (Js.insert comparefn x l).
Proof.
  induction 1 as [|y l Hs IH Hhd]; simpl.
  - repeat constructor.
  - destruct (Z.leb_spec (comparefn x y) 0) as [Hle|Hgt].
    + constructor; [now constructor | now constructor].
    + constructor; [exact IH|].
      apply insert_HdRel; [|exact Hhd].
      apply comparefn_total. lia.
Qed.

Lemma sort_Sorted l : Sorted le (Js.sort comparefn l).
Proof.
  induction l as [|x l IH]; simpl; [constructor | now apply insert_Sorted].
Qed.

Lemma sort_StronglySorted l : StronglySorted le (Js.sort comparefn l).
Proof.
  apply Sorted_StronglySorted; [|apply sort_Sorted].
  intros a b c. apply comparefn_trans.
Qed.
End Sort.

Section AllSettled.
Context {A : Type}.
Implicit Types (promises : list (Js.settled A)) (order : list nat).

Lemma mapM_slots promises :
  mapM (fun slot : option (Js.settled A) => slot) (Some <$> promises)
  = Some promises.
Proof.
  induction promises as [|p ps IH]; [reflexivity|].
  cbn. rewrite IH. reflexivity.
Qed.

Lemma settle_consistent promises values i :
  Js.consistent promises values ->
  Js.consistent promises (Js.settle promises values i).
Proof.
  intros [Hlen Hslots]. unfold Js.settle.
  destruct (promises !! i) as [r|] eqn:Hi; [|now split].
  split; [now rewrite length_insert|].
  intros j r' Hj. destruct (decide (i = j)) as [->|Hne].
  - rewrite list_lookup_insert_eq in Hj; [congruence|].
    rewrite Hlen. eapply lookup_lt_Some, Hi.
  - rewrite list_lookup_insert_ne in Hj by assumption. now apply Hslots.
Qed.

Lemma settle_keeps promises values i j r :
  Js.consistent promises values ->
  values !! j = Some (Some r) ->
  Js.settle promises values i !! j = Some (Some r).
Proof.
  intros [Hlen Hslots] Hj. unfold Js.settle.
  destruct (promises !! i) as [r'|] eqn:Hi; [|assumption].
  destruct (decide (i = j)) as [->|Hne].
  - apply Hslots in Hj. rewrite list_lookup_insert_eq; [congruence|].
    rewrite Hlen. eapply lookup_lt_Some, Hi.
  - now rewrite list_lookup_insert_ne.
Qed.

Lemma foldl_settle promises order : forall values,
  Js.consistent promises values ->
  Js.consistent promises (foldl (Js.settle promises) values order) /\
  forall j r, promises !! j = Some r ->
    (j ∈ order \/ values !! j = Some (Some r)) ->
    foldl (Js.settle promises) values order !! j = Some (Some r).
Proof.
  induction order as [|i order IH]; intros values Hc; simpl.
  - split; [assumption|]. intros j r _ [Hin|Hv]; [inversion Hin | assumption].
  - destruct (IH _ (settle_consistent promises values i Hc)) as [Hc' Hlook].
    split; [assumption|].
    intros j r Hj [Hin|Hv].
    + apply elem_of_cons in Hin as [->|Hin]; [|apply Hlook; auto].
      apply Hlook; [assumption|]. right.
      unfold Js.settle. rewrite Hj.
      apply list_lookup_insert_eq. destruct Hc as [-> _].
      eapply lookup_lt_Some, Hj.
    + apply Hlook; [assumption|]. right. now apply settle_keeps.
Qed.

(** Once every promise has settled, [allSettled] resolves with the
    outcomes in the order of the promises it was given, whatever the
    order in which they settled. *)
Lemma allSettled_resolves promises order :
  Spec.settlesAll (length promises) order ->
  Js.allSettled promises order = Some promises.
Proof.
  intros Hall. unfold Js.allSettled.
  assert (Hc : Js.consistent promises (replicate (length promises) None)).
  { split; [apply length_replicate|].
    intros i r Hi. apply lookup_replicate in Hi as [? _]. discriminate. }
  destruct (foldl_settle promises order _ Hc) as [[Hlen _] Hlook].
  rewrite <- mapM_slots. f_equal.
  apply list_eq. intros j. rewrite list_lookup_fmap.
  destruct (promises !! j) as [r|] eqn:Hj; simpl.
  - apply Hlook; [assumption|]. left.
    unfold Spec.settlesAll in Hall. rewrite Forall_forall in Hall.
    apply Hall, elem_of_seq. split; [lia|]. simpl. eapply lookup_lt_Some, Hj.
  - apply lookup_ge_None. rewrite Hlen. now apply lookup_ge_None.
Qed.

(** A promise that never settles keeps [allSettled] pending. *)
Lemma allSettled_pending promises order i :
  (i < length promises)%nat -> i ∉ order ->
  Js.allSettled promises order = None.
Proof.
  intros Hi Hnot. unfold Js.allSettled.
  assert (Hnone : forall values,
    values !! i = Some None ->
    foldl (Js.settle promises) values order !! i = Some None).
  { revert Hnot. induction order as [|k order IH]; intros Hnot values Hv;
      simpl; [assumption|].
    apply IH; [intros ?; apply Hnot; now right|].
    unfold Js.settle. destruct (promises !! k); [|assumption].
    rewrite list_lookup_insert_ne; [assumption|].
    intros ->. apply Hnot. now left. }
  specialize (Hnone (replicate (length promises) None)).
  rewrite lookup_replicate_2 in Hnone by assumption.
  specialize (Hnone eq_refl).
  destruct (mapM _ _) as [l|] eqn:Hm; [|reflexivity].
  apply mapM_Some in Hm.
  eapply Forall2_lookup_l in Hm as (y & _ & Hy); [|exact Hnone].
  discriminate.
Qed.
End AllSettled.

End JsFacts.

(* ================================================================== *)
(** * Facts about lists and strings *)
(* ================================================================== *)

Module ListFacts.

Lemma Sorted_weaken {A : Type} (R S : A -> A -> Prop) (l : list A) :
  (forall a b, R a b -> S a b) -> Sorted R l -> Sorted S l.
Proof.
  intros HRS. induction 1 as [|x l Hs IH Hhd]; constructor; [assumption|].
  destruct Hhd; constructor. now apply HRS.
Qed.

Lemma StronglySorted_lookup {A : Type} (R : A -> A -> Prop) (l : list A) :
  StronglySorted R l ->
  forall i j a b, l !! i = Some a -> l !! j = Some b -> (i < j)%nat -> R a b.
Proof.
  induction 1 as [|x l Hs IH Hall]; intros i j a b Hi Hj Hlt.
  - discriminate.
  - destruct j as [|j]; [lia|]. simpl in Hj.
    destruct i as [|i]; simpl in Hi.
    + injection Hi as <-. rewrite List.Forall_forall in Hall.
      apply Hall. apply list_elem_of_In. eapply list_elem_of_lookup_2, Hj.
    + apply (IH i j); [assumption .. | lia].
Qed.

Lemma omap_length_filter {A B : Type} (f : A -> option B) (p : A -> bool)
    (l : list A) :
  (forall x, p x = true <-> is_Some (f x)) ->
  length (omap f l) = length (List.filter p l).
Proof.
  intros Hp. induction l as [|x l IH]; [reflexivity|].
  change (omap f (x :: l))
    with (match f x with Some y => y :: omap f l | None => omap f l end).
  simpl List.filter.
  destruct (f x) as [y|] eqn:Hfx, (p x) eqn:Hpx; simpl length.
  - now rewrite IH.
  - assert (is_Some (f x)) as Hs by (rewrite Hfx; eauto).
    apply Hp in Hs. congruence.
  - apply Hp in Hpx. rewrite Hfx in Hpx. destruct Hpx. discriminate.
  - exact IH.
Qed.

Lemma list_of_append (a b : string) :
  list_ascii_of_string (a +:+ b)
  = list_ascii_of_string a ++ list_ascii_of_string b.
Proof. induction a as [|c a IH]; simpl; [reflexivity | now rewrite IH]. Qed.

Lemma list_of_string_inj (a b : string) :
  list_ascii_of_string a = list_ascii_of_string b -> a = b.
Proof.
  intros H. rewrite <- (string_of_list_ascii_of_string a),
    <- (string_of_list_ascii_of_string b). now rewrite H.
Qed.

(** Two splits of one list at a separator that occurs in neither right
    part are the same split. *)
Lemma split_at_last {A : Type} (s : A) (l1 l2 r1 r2 : list A) :
  l1 ++ s :: r1 = l2 ++ s :: r2 -> s ∉ r1 -> s ∉ r2 -> l1 = l2 /\ r1 = r2.
Proof.
  revert l2. induction l1 as [|x l1 IH]; intros [|y l2] Heq H1 H2; simpl in Heq.
  - injection Heq as ->. auto.
  - injection Heq as -> ->. exfalso. apply H1.
    apply elem_of_app. right. constructor.
  - injection Heq as -> <-. exfalso. apply H2.
    apply elem_of_app. right. constructor.
  - injection Heq as -> Heq. destruct (IH _ Heq H1 H2) as [-> ->]. auto.
Qed.

(** The same when the separator occurs in neither left part. *)
Lemma split_at_first {A : Type} (s : A) (l1 l2 r1 r2 : list A) :
  l1 ++ s :: r1 = l2 ++ s :: r2 -> s ∉ l1 -> s ∉ l2 -> l1 = l2 /\ r1 = r2.
Proof.
  revert l2. induction l1 as [|x l1 IH]; intros [|y l2] Heq H1 H2; simpl in Heq.
  - injection Heq as ->. auto.
  - injection Heq as -> _. exfalso. apply H2. constructor.
  - injection Heq as -> _. exfalso. apply H1. constructor.
  - injection Heq as -> Heq.
    apply not_elem_of_cons in H1 as [_ H1], H2 as [_ H2].
    destruct (IH _ Heq H1 H2) as [-> ->]. auto.
Qed.

End ListFacts.

(* ================================================================== *)
(** * The configured calendars *)
(* ================================================================== *)

Module Configuration.

Example getCalendarIds_examples :
  getCalendarIds Examples.twoCalendars = returned ["A"; "B"] /\
  getCalendarIds Examples.oneCalendar = returned ["A"] /\
  getCalendarIds {| GOOGLE_CALENDAR_IDS := Js.str " a@x.org ,, b@y.org,";
                    GOOGLE_CALENDAR_ID := Js.str "old" |}
  = returned ["a@x.org"; "b@y.org"] /\
  getCalendarIds {| GOOGLE_CALENDAR_IDS := Js.str " , ";
                    GOOGLE_CALENDAR_ID := Js.undefined |}
  = thrown "Missing GOOGLE_CALENDAR_IDS (or GOOGLE_CALENDAR_ID)".
Proof. repeat split. Qed.

(** No-break spaces around an id are trimmed away, and an entry made of
    them alone is dropped. *)
Example getCalendarIds_no_break_space :
  let nbsp := String (ascii_of_nat 160) "" in
  getCalendarIds {| GOOGLE_CALENDAR_IDS := Js.str (nbsp +:+ "A" +:+ nbsp +:+ ",B");
                    GOOGLE_CALENDAR_ID := Js.undefined |}
  = returned ["A"; "B"] /\
  getCalendarIds {| GOOGLE_CALENDAR_IDS := Js.str (nbsp +:+ "," +:+ nbsp);
                    GOOGLE_CALENDAR_ID := Js.undefined |}
  = thrown "Missing GOOGLE_CALENDAR_IDS (or GOOGLE_CALENDAR_ID)".
Proof. repeat split. Qed.

(** The list [getCalendarIds] returns is never empty. *)
Lemma getCalendarIds_nonempty env calendarIds :
  getCalendarIds env = returned calendarIds -> calendarIds <> [].
Proof.
  unfold getCalendarIds.
  destruct (List.filter _ _) as [|c ids].
  - destruct (Js.truthy _); [|discriminate]. now intros [= <-].
  - now intros [= <-].
Qed.

(** Without configured calendars both handlers answer with the error. *)
Example no_calendar_configured :
  Examples.getEvents "UTC"
    (getCalendarIds {| GOOGLE_CALENDAR_IDS := Js.undefined;
                       GOOGLE_CALENDAR_ID := Js.undefined |})
    Js.undefined Examples.now Examples.bothSucceed []
  = Some (status500 "Missing GOOGLE_CALENDAR_IDS (or GOOGLE_CALENDAR_ID)").
Proof. reflexivity. Qed.

End Configuration.

(* ================================================================== *)
(** * Event normalization ([GET /events], lines 72-86) *)
(* ================================================================== *)

Module Normalization.

Lemma present_not_absent v : Spec.present v -> ~ Spec.absent v.
Proof. intros Hp [-> | ->]; discriminate Hp. Qed.

Lemma or_present_l a b : Spec.present a -> Js.or a b = a.
Proof. unfold Spec.present, Js.or. now intros ->. Qed.

Lemma or_not_present_l a b : ~ Spec.present a -> Js.or a b = b.
Proof.
  unfold Spec.present, Js.or. destruct (Js.truthy a); [congruence | reflexivity].
Qed.

Lemma or_selected (o : option Calendar.EventDateTime) :
  Spec.selected o (Js.or (Js.optChain o Calendar.dateTime)
                         (Js.optChain o Calendar.date)).
Proof.
  destruct o as [t|]; [|reflexivity]. simpl. repeat split.
  - apply or_present_l.
  - intros Hdt _. now apply or_not_present_l.
  - now rewrite or_not_present_l.
  - now apply or_not_present_l.
Qed.

Example normalize_all_day :
  Server.normalize "B" Examples.allDay
  = {| Server.sourceCalendarId := "B";
       Server.id := "B:evt1";
       Server.title := "(no title)";
       Server.location := "";
       Server.description := "";
       Server.allDay := true;
       Server.start := Js.str "2024-03-01";
       Server.end_ := Js.str "2024-03-02" |}.
Proof. reflexivity. Qed.

Example normalize_without_start :
  Server.normalize "A" Examples.noStart
  = {| Server.sourceCalendarId := "A";
       Server.id := "A:evt2";
       Server.title := "(no title)";
       Server.location := "";
       Server.description := "";
       Server.allDay := false;
       Server.start := Js.undefined;
       Server.end_ := Js.undefined |}.
Proof. reflexivity. Qed.

(** C4: normalization is a total function of the raw event and the
    calendar id, whatever properties the raw event lacks.  The title is
    the placeholder "(no title)" when the provider summary is absent or
    empty, and the summary itself in every other case, so that the title
    reads "(no title)" only when the summary is absent, empty or that very
    text; location and description are the provider's strings, and the
    empty string when absent. *)
Theorem normalize_total_with_defaults
    (calendarId : string) (e : Calendar.RawEvent) :
  exists ev, Server.normalize calendarId e = ev /\
    (Spec.absent (Calendar.summary e) \/ Calendar.summary e = Js.str "" ->
     Server.title ev = "(no title)") /\
    (forall s, Calendar.summary e = Js.str s -> s <> "" -> Server.title ev = s) /\
    (Server.title ev = "(no title)" ->
     Spec.absent (Calendar.summary e) \/ Calendar.summary e = Js.str ""
     \/ Calendar.summary e = Js.str "(no title)") /\
    (Spec.absent (Calendar.location e) -> Server.location ev = "") /\
    (forall s, Calendar.location e = Js.str s -> Server.location ev = s) /\
    (Spec.absent (Calendar.description e) -> Server.description ev = "") /\
    (forall s, Calendar.description e = Js.str s -> Server.description ev = s).
Proof.
  eexists. split; [reflexivity|]. simpl.
  repeat split.
  - intros [[-> | ->] | ->]; reflexivity.
  - intros s -> Hs. simpl. destruct (String.eqb_spec s ""); congruence.
  - unfold Spec.absent. destruct (Calendar.summary e) as [| |s]; simpl; auto.
    destruct (String.eqb_spec s "") as [->|]; [auto|]. intros ->. auto.
  - intros [-> | ->]; reflexivity.
  - intros s ->. simpl. destruct (String.eqb_spec s ""); congruence.
  - intros [-> | ->]; reflexivity.
  - intros s ->. simpl. destruct (String.eqb_spec s ""); congruence.
Qed.

(** C5: the [allDay] flag of the normalized event is true exactly when the
    raw start carries a (non-empty) date-only value; [start] and [end] are
    the date-time value when there is one, else the date-only value when
    there is one, and otherwise nothing: [undefined] when the raw record
    has no start object, and else whatever falsy value the date-only
    property holds. *)
Theorem normalize_allDay_start_end
    (calendarId : string) (e : Calendar.RawEvent) :
  (Server.allDay (Server.normalize calendarId e) = true <->
   exists t, Calendar.start e = Some t /\ Spec.present (Calendar.date t)) /\
  Spec.selected (Calendar.start e)
                (Server.start (Server.normalize calendarId e)) /\
  Spec.selected (Calendar.end_ e)
                (Server.end_ (Server.normalize calendarId e)).
Proof.
  split; [|split; apply or_selected].
  simpl. destruct (Calendar.start e) as [t|]; simpl; split.
  - intros H. now exists t.
  - now intros (t' & [= <-] & H).
  - discriminate.
  - now intros (t' & [=] & _).
Qed.

(** C7, as the code has it: the canonical id is the calendar id, a colon
    and the provider's event id; for two different calendars the canonical
    ids differ whenever the two events share their provider id, and more
    generally whenever neither provider id, or neither calendar id,
    contains a colon. *)
Theorem canonical_id_distinct_across_calendars
    (c1 c2 : string) (e1 e2 : Calendar.RawEvent) :
  Server.id (Server.normalize c1 e1)
    = c1 +:+ ":" +:+ Js.toString (Calendar.id e1) /\
  (c1 <> c2 ->
   Js.toString (Calendar.id e1) = Js.toString (Calendar.id e2)
   \/ (~ Spec.hasSeparator (Js.toString (Calendar.id e1)) /\
       ~ Spec.hasSeparator (Js.toString (Calendar.id e2)))
   \/ (~ Spec.hasSeparator c1 /\ ~ Spec.hasSeparator c2) ->
   Server.id (Server.normalize c1 e1) <> Server.id (Server.normalize c2 e2)).
Proof.
  split; [reflexivity|]. simpl.
  intros Hne Hcases Heq. apply Hne.
  apply (f_equal list_ascii_of_string) in Heq.
  rewrite !ListFacts.list_of_append in Heq. simpl in Heq.
  apply ListFacts.list_of_string_inj.
  destruct Hcases as [Hid | [[H1 H2] | [H1 H2]]].
  - rewrite Hid in Heq. apply app_inv_tail in Heq. exact Heq.
  - now destruct (ListFacts.split_at_last _ _ _ _ _ Heq H1 H2).
  - now destruct (ListFacts.split_at_first _ _ _ _ _ Heq H1 H2).
Qed.

(** Two provider events of the calendars [a] and [a:b]. *)
Lemma canonical_id_distinct_witness :
  "a" <> "a:b" /\
  Server.id (Server.normalize "a" (Examples.withId "x"))
    <> Server.id (Server.normalize "a:b" (Examples.withId "x")).
Proof.
  split; [discriminate|].
  apply (canonical_id_distinct_across_calendars
           "a" "a:b" (Examples.withId "x") (Examples.withId "x"));
    [discriminate | left; reflexivity].
Defined.

(** C7, as the specification states it, fails: the calendars [a] and
    [a:b] are different, and the event [b:c] of the first has the
    canonical id of the event [c] of the second. *)
Lemma canonical_id_collision :
  "a" <> "a:b" /\
  Server.id (Server.normalize "a" (Examples.withId "b:c"))
    = Server.id (Server.normalize "a:b" (Examples.withId "c")).
Proof. split; [discriminate | reflexivity]. Qed.

End Normalization.

(* ================================================================== *)
(** * [GET /events]: fan-in, merge and sort *)
(* ================================================================== *)

Module EventsEndpoint.

Lemma fulfilments_cons {A : Type} (x : Js.settled A) (l : list (Js.settled A)) :
  fulfilments (x :: l)
  = match x with
    | Js.fulfilled v => v :: fulfilments l
    | Js.rejected _ => fulfilments l
    end.
Proof. now destruct x. Qed.

Lemma rejections_cons {A : Type} (x : Js.settled A) (l : list (Js.settled A)) :
  rejections (x :: l)
  = match x with
    | Js.fulfilled _ => rejections l
    | Js.rejected reason => errorMessage reason :: rejections l
    end.
Proof. now destruct x. Qed.

Lemma omap_cons {A B : Type} (f : A -> option B) (x : A) (l : list A) :
  omap f (x :: l)
  = match f x with Some y => y :: omap f l | None => omap f l end.
Proof. reflexivity. Qed.

Lemma fetches_cons provider r c calendarIds :
  Server.fetches provider r (c :: calendarIds)
  = thenMap (Server.fetched c) (provider (Server.listRequest c r))
    :: Server.fetches provider r calendarIds.
Proof. reflexivity. Qed.

Lemma events_of_fetches provider r calendarIds :
  flat_map Server.Fetched.events
           (fulfilments (Server.fetches provider r calendarIds))
  = flat_map (Spec.contribution provider r) calendarIds.
Proof.
  induction calendarIds as [|c ids IH]; [reflexivity|].
  rewrite fetches_cons, fulfilments_cons. cbn [flat_map].
  unfold Spec.contribution at 1.
  destruct (provider (Server.listRequest c r)) as [resp|reason];
    cbn [thenMap flat_map]; [|exact IH].
  now rewrite IH.
Qed.

Lemma succeeded_of_fetches provider r calendarIds :
  map Server.Fetched.calendarId
      (fulfilments (Server.fetches provider r calendarIds))
  = omap (Spec.succeededId provider r) calendarIds.
Proof.
  induction calendarIds as [|c ids IH]; [reflexivity|].
  rewrite fetches_cons, fulfilments_cons, omap_cons.
  unfold Spec.succeededId at 1, Spec.fails.
  destruct (provider (Server.listRequest c r)) as [resp|reason];
    cbn [thenMap map Js.isRejected]; [|exact IH].
  now rewrite IH.
Qed.

Lemma errors_of_fetches provider r calendarIds :
  rejections (Server.fetches provider r calendarIds)
  = omap (Spec.failureMessage provider r) calendarIds.
Proof.
  induction calendarIds as [|c ids IH]; [reflexivity|].
  rewrite fetches_cons, rejections_cons, omap_cons.
  unfold Spec.failureMessage at 1.
  destruct (provider (Server.listRequest c r)) as [resp|reason];
    cbn [thenMap]; [exact IH|].
  now rewrite IH.
Qed.

Section Handler.
Variable weight : ascii -> N.
Variable DateTime : Type.
Variable plus : DateTime -> Z -> DateTime.
Variable toUTCISO : DateTime -> Js.value.

Abbreviation getEvents := (Server.getEvents weight DateTime plus toUTCISO).
Abbreviation requestRange := (Server.requestRange DateTime plus toUTCISO).

Lemma compareStart_total (a b : Server.Event) :
  0 < Server.compareStart weight a b -> Server.compareStart weight b a <= 0.
Proof.
  unfold Server.compareStart. intros H.
  rewrite JsFacts.localeCompare_flip. lia.
Qed.

Lemma compareStart_trans (a b c : Server.Event) :
  Server.compareStart weight a b <= 0 -> Server.compareStart weight b c <= 0 ->
  Server.compareStart weight a c <= 0.
Proof. unfold Server.compareStart. apply JsFacts.localeCompare_trans. Qed.

(** With the calendar ids returned and a usable [days] parameter, the
    handler answers once every fetch has settled, with the body built from
    the outcomes in request order. *)
Lemma getEvents_responds TZ calendarIds queryDays now provider order r :
  requestRange queryDays now = returned r ->
  Spec.settlesAll (length calendarIds) order ->
  getEvents TZ (returned calendarIds) queryDays now provider order
  = Some (json (Server.respond weight TZ calendarIds r
                  (Server.fetches provider r calendarIds))).
Proof.
  intros Hr Hall. unfold Server.getEvents. rewrite Hr.
  rewrite JsFacts.allSettled_resolves; [reflexivity|].
  unfold Server.fetches. now rewrite length_map.
Qed.

(** C1: for every list of calendar ids, once every fetch has settled,
    some failing and the others succeeding, the response is produced; its
    [events] are exactly the normalized events of the calendars whose fetch
    succeeded, each as many times as it was returned (a failed calendar
    contributes none and takes none away), and [errors] has one entry per
    failed calendar. *)
Theorem failed_calendar_isolated TZ calendarIds queryDays now provider order r :
  requestRange queryDays now = returned r ->
  Spec.settlesAll (length calendarIds) order ->
  exists body,
    getEvents TZ (returned calendarIds) queryDays now provider order
    = Some (json body) /\
    Server.events body
    ≡ₚ flat_map (Spec.contribution provider r) calendarIds /\
    length (Server.errors body)
    = length (List.filter (Spec.fails provider r) calendarIds).
Proof.
  intros Hr Hall. eexists.
  split; [exact (getEvents_responds _ _ _ _ _ _ r Hr Hall)|].
  cbn [Server.respond Server.events Server.errors]. split.
  - unfold Server.merge. rewrite JsFacts.sort_Permutation.
    now rewrite events_of_fetches.
  - rewrite errors_of_fetches. apply ListFacts.omap_length_filter.
    intros c. unfold Spec.fails, Spec.failureMessage.
    destruct (provider (Server.listRequest c r)); simpl; split;
      try discriminate; eauto.
    intros [? [=]].
Qed.


(** C8, as the code has it: in the [events] of the response, every event
    without a [start] value comes before every event that has one. *)
Theorem missing_start_sorts_first
    TZ calendarIds queryDays now provider order r :
  requestRange queryDays now = returned r ->
  Spec.settlesAll (length calendarIds) order ->
  exists body,
    getEvents TZ (returned calendarIds) queryDays now provider order
    = Some (json body) /\
    Spec.missingStartFirst (Server.events body).
Proof.
  intros Hr Hall. eexists.
  split; [exact (getEvents_responds _ _ _ _ _ _ r Hr Hall)|].
  cbn [Server.respond Server.events]. unfold Server.merge.
  intros i j ei ej Hi Hj Hmissing Hpresent.
  destruct (Nat.lt_ge_cases i j) as [Hlt|Hge]; [exact Hlt|exfalso].
  assert (Hji : (j < i)%nat).
  { destruct (Nat.eq_dec i j) as [->|]; [|lia].
    rewrite Hi in Hj. injection Hj as ->.
    unfold Spec.present in Hpresent. congruence. }
  pose proof (ListFacts.StronglySorted_lookup _ _
    (JsFacts.sort_StronglySorted (Server.compareStart weight)
       compareStart_total compareStart_trans _) j i ej ei Hj Hi Hji) as Hle.
  unfold Js.ascending, Server.compareStart in Hle.
  rewrite (JsFacts.orString_falsy _ _ Hmissing) in Hle.
  rewrite JsFacts.localeCompare_empty_r in Hle; [lia|].
  destruct (Server.start ej) as [| |s]; try discriminate Hpresent.
  simpl. apply JsFacts.truthy_str in Hpresent.
  destruct (String.eqb_spec s ""); congruence.
Qed.

(** C9, as the code has it: [calendarsRequested] is the list of
    calendar ids as configured; [calendarsSucceeded] and [errors] list the
    succeeded calendars and the failure messages in that same request
    order, whatever the order in which the fetches settled. *)
Theorem succeeded_and_errors_in_request_order
    TZ calendarIds queryDays now provider order r :
  requestRange queryDays now = returned r ->
  Spec.settlesAll (length calendarIds) order ->
  exists body,
    getEvents TZ (returned calendarIds) queryDays now provider order
    = Some (json body) /\
    Server.calendarsRequested body = calendarIds /\
    Server.calendarsSucceeded body
    = omap (Spec.succeededId provider r) calendarIds /\
    Server.errors body = omap (Spec.failureMessage provider r) calendarIds.
Proof.
  intros Hr Hall. eexists.
  split; [exact (getEvents_responds _ _ _ _ _ _ r Hr Hall)|].
  cbn [Server.respond Server.calendarsRequested Server.calendarsSucceeded
       Server.errors].
  rewrite succeeded_of_fetches, errors_of_fetches. auto.
Qed.

End Handler.

(** Calendar [A] fails, calendar [B] settles first and succeeds. *)
Lemma failed_calendar_isolated_witness :
  exists body,
    Examples.getEvents "UTC" (getCalendarIds Examples.twoCalendars) Js.undefined
      Examples.now Examples.firstFails [1; 0]%nat
    = Some (json body) /\
    Server.events body
    ≡ₚ flat_map (Spec.contribution Examples.firstFails Examples.thirtyDays)
                ["A"; "B"] /\
    length (Server.errors body)
    = length (List.filter (Spec.fails Examples.firstFails Examples.thirtyDays)
                          ["A"; "B"]).
Proof.
  apply (failed_calendar_isolated Reference.codeUnit Reference.DateTime
           Reference.plus Reference.toUTCISO "UTC" ["A"; "B"] Js.undefined
           Examples.now Examples.firstFails [1; 0]%nat Examples.thirtyDays).
  - reflexivity.
  - repeat constructor.
Defined.



(** A calendar that returns an event without a start between two dated
    ones. *)
Lemma missing_start_sorts_first_witness :
  exists body,
    Examples.getEvents "UTC" (getCalendarIds Examples.oneCalendar) Js.undefined
      Examples.now Examples.oneWithoutStart [0]%nat
    = Some (json body) /\
    Spec.missingStartFirst (Server.events body).
Proof.
  apply (missing_start_sorts_first Reference.codeUnit Reference.DateTime
           Reference.plus Reference.toUTCISO "UTC" ["A"] Js.undefined
           Examples.now Examples.oneWithoutStart [0]%nat Examples.thirtyDays).
  - reflexivity.
  - repeat constructor.
Defined.

(** C8, as the specification states it, fails: the calendar returns the
    all-day event of 2024-03-01 and then an event without a start, and
    the response lists the event without a start first. *)
Lemma missing_start_not_last :
  exists body,
    Examples.getEvents "UTC" (getCalendarIds Examples.oneCalendar) Js.undefined
      Examples.now Examples.oneWithoutStart [0]%nat
    = Some (json body) /\
    map Server.start (Server.events body)
    = [Js.undefined; Js.str "2024-03-01"; Js.str "2024-03-02T15:45:00Z"] /\
    ~ Spec.missingStartLast (Server.events body).
Proof.
  eexists. split; [vm_compute; reflexivity|]. split; [reflexivity|].
  intros Hlast.
  specialize (Hlast 0%nat 1%nat _ _ eq_refl eq_refl (or_introl eq_refl) eq_refl).
  lia.
Qed.

(** Both calendars succeed, [B] settling before [A]. *)
Lemma succeeded_and_errors_in_request_order_witness :
  exists body,
    Examples.getEvents "UTC" (getCalendarIds Examples.twoCalendars) Js.undefined
      Examples.now Examples.bothSucceed [1; 0]%nat
    = Some (json body) /\
    Server.calendarsRequested body = ["A"; "B"] /\
    Server.calendarsSucceeded body
    = omap (Spec.succeededId Examples.bothSucceed Examples.thirtyDays)
           ["A"; "B"] /\
    Server.errors body
    = omap (Spec.failureMessage Examples.bothSucceed Examples.thirtyDays)
           ["A"; "B"].
Proof.
  apply (succeeded_and_errors_in_request_order Reference.codeUnit
           Reference.DateTime Reference.plus Reference.toUTCISO "UTC"
           ["A"; "B"] Js.undefined Examples.now Examples.bothSucceed
           [1; 0]%nat Examples.thirtyDays).
  - reflexivity.
  - repeat constructor.
Defined.

(** C9, as the specification states it, fails: with [B] settling before
    [A], the succeeded calendars are listed [A], [B] and not in the order
    of completion [B], [A]; and when both fail, so are their messages. *)
Lemma succeeded_not_in_completion_order :
  (exists body,
     Examples.getEvents "UTC" (getCalendarIds Examples.twoCalendars) Js.undefined
       Examples.now Examples.bothSucceed [1; 0]%nat
     = Some (json body) /\
     Server.calendarsSucceeded body = ["A"; "B"] /\
     Server.calendarsSucceeded body
     <> Spec.inCompletionOrder
          (Spec.succeededId Examples.bothSucceed Examples.thirtyDays)
          ["A"; "B"] [1; 0]%nat) /\
  (exists body,
     Examples.getEvents "UTC" (getCalendarIds Examples.twoCalendars) Js.undefined
       Examples.now Examples.bothFail [1; 0]%nat
     = Some (json body) /\
     Server.errors body = ["quota exceeded"; "not found"] /\
     Server.errors body
     <> Spec.inCompletionOrder
          (Spec.failureMessage Examples.bothFail Examples.thirtyDays)
          ["A"; "B"] [1; 0]%nat).
Proof.
  split; eexists; (split; [vm_compute; reflexivity|]);
    (split; [reflexivity | vm_compute; discriminate]).
Qed.

End EventsEndpoint.

(* ================================================================== *)
(** * [GET /wall]: display time and the today / upcoming partition *)
(* ================================================================== *)

Module WallEndpoint.

Lemma wall_fetches_cons {DateTime : Type} (fromISO : Js.value -> DateTime)
    isValid toFormat provider r c calendarIds :
  Wall.fetches DateTime fromISO isValid toFormat provider r (c :: calendarIds)
  = thenMap (Wall.fetched DateTime fromISO isValid toFormat c)
            (provider (Wall.listRequest c r))
    :: Wall.fetches DateTime fromISO isValid toFormat provider r calendarIds.
Proof. reflexivity. Qed.

Section Handler.
Variable weight : ascii -> N.
Variable DateTime : Type.
Variable plus : DateTime -> Z -> DateTime.
Variable toUTCISO : DateTime -> Js.value.
Variable fromISO : Js.value -> DateTime.
Variable isValid : DateTime -> bool.
Variable toISODate : DateTime -> Js.value.
Variable toFormat : DateTime -> string -> string.

Abbreviation getWall :=
  (Wall.getWall weight DateTime plus toUTCISO fromISO isValid toISODate
                toFormat).
Abbreviation wallRange := (Wall.requestRange DateTime plus toUTCISO).
Abbreviation fetches := (Wall.fetches DateTime fromISO isValid toFormat).
Abbreviation normalize := (Wall.normalize DateTime fromISO isValid toFormat).
Abbreviation formatEventTime :=
  (Wall.formatEventTime DateTime fromISO isValid toFormat).
Abbreviation startKey := (Wall.startKey DateTime fromISO isValid toISODate).
Abbreviation partition := (Wall.partition DateTime fromISO isValid toISODate).
Abbreviation bucket := (Wall.bucket DateTime fromISO isValid toISODate).
Abbreviation respond :=
  (Wall.respond weight DateTime fromISO isValid toISODate).

Lemma strictEquals_eq (a b : Js.value) : Wall.strictEquals a b = true <-> a = b.
Proof.
  destruct a as [| |x], b as [| |y]; simpl; split; try congruence.
  - intros H. f_equal. now apply String.eqb_eq.
  - intros [= ->]. apply String.eqb_refl.
Qed.

(** The loop pushes each event, in order, on the array its start key
    selects. *)
Lemma foldl_bucket todayKey events : forall today upcoming,
  foldl (bucket todayKey) (today, upcoming) events
  = (today ++ List.filter
                (fun e => Wall.strictEquals (startKey e) todayKey) events,
     upcoming ++ List.filter
                (fun e => negb (Wall.strictEquals (startKey e) todayKey)) events).
Proof.
  induction events as [|e events IH]; intros today upcoming; simpl.
  - now rewrite !app_nil_r.
  - destruct (Wall.strictEquals (startKey e) todayKey); simpl;
      rewrite IH, <- app_assoc; reflexivity.
Qed.

Lemma partition_filter todayKey events :
  partition todayKey events
  = (List.filter (fun e => Wall.strictEquals (startKey e) todayKey) events,
     List.filter (fun e => negb (Wall.strictEquals (startKey e) todayKey)) events).
Proof. unfold Wall.partition. now rewrite foldl_bucket. Qed.

Lemma filter_split_Permutation {A : Type} (p : A -> bool) (l : list A) :
  List.filter p l ++ List.filter (fun x => negb (p x)) l ≡ₚ l.
Proof.
  induction l as [|x l IH]; [reflexivity|]. simpl.
  destruct (p x); simpl.
  - now apply perm_skip.
  - rewrite <- Permutation_middle. now apply perm_skip.
Qed.

(** The start key of an event is the date key of the request exactly
    when the event starts on the date of the request. *)
Lemma startKey_today now e :
  toISODate now <> Js.str "" ->
  Wall.strictEquals (startKey e) (toISODate now) = true
  <-> Spec.startsOnDateOf fromISO isValid toISODate now e.
Proof.
  intros Hkey. rewrite strictEquals_eq.
  unfold Wall.startKey, Spec.startsOnDateOf.
  destruct (isValid (fromISO (Wall.start e))); split.
  - auto.
  - now intros [_ H].
  - intros H. now rewrite <- H in Hkey.
  - now intros [H _].
Qed.

Lemma getWall_responds TZ calendarIds queryDays now provider order r :
  wallRange queryDays now = returned r ->
  Spec.settlesAll (length calendarIds) order ->
  getWall TZ (returned calendarIds) queryDays now provider order
  = Some (json (respond TZ calendarIds r now (fetches provider r calendarIds))).
Proof.
  intros Hr Hall. unfold Wall.getWall. rewrite Hr.
  rewrite JsFacts.allSettled_resolves; [reflexivity|].
  unfold Wall.fetches. now rewrite length_map.
Qed.

Lemma respond_today TZ calendarIds r now settled :
  Wall.today (respond TZ calendarIds r now settled)
  = List.filter (fun e => Wall.strictEquals (startKey e) (toISODate now))
                (Wall.merge weight settled).
Proof. unfold Wall.respond. now rewrite partition_filter. Qed.

Lemma respond_upcoming TZ calendarIds r now settled :
  Wall.upcoming (respond TZ calendarIds r now settled)
  = List.filter
      (fun e => negb (Wall.strictEquals (startKey e) (toISODate now)))
      (Wall.merge weight settled).
Proof. unfold Wall.respond. now rewrite partition_filter. Qed.

(** C3: in the wall view every event of the merged sorted list is put
    in [today] exactly when its start parses to a time on the calendar
    date of the request in the configured zone, and in [upcoming]
    otherwise, an unparseable start included; the two buckets together
    hold each event of the list exactly once. *)
Theorem today_iff_starts_on_request_date
    TZ calendarIds queryDays now provider order r :
  wallRange queryDays now = returned r ->
  Spec.settlesAll (length calendarIds) order ->
  toISODate now <> Js.str "" ->
  exists body,
    getWall TZ (returned calendarIds) queryDays now provider order
    = Some (json body) /\
    let events := Wall.merge weight (fetches provider r calendarIds) in
    (forall e, e ∈ Wall.today body <->
       e ∈ events /\ Spec.startsOnDateOf fromISO isValid toISODate now e) /\
    (forall e, e ∈ Wall.upcoming body <->
       e ∈ events /\ ~ Spec.startsOnDateOf fromISO isValid toISODate now e) /\
    (forall e, isValid (fromISO (Wall.start e)) = false ->
       e ∈ events -> e ∈ Wall.upcoming body) /\
    Wall.today body ++ Wall.upcoming body ≡ₚ events.
Proof.
  intros Hr Hall Hkey. eexists.
  split; [exact (getWall_responds _ _ _ _ _ _ r Hr Hall)|].
  cbv zeta. rewrite respond_today, respond_upcoming.
  assert (Hup : forall e,
    e ∈ List.filter
          (fun e => negb (Wall.strictEquals (startKey e) (toISODate now)))
          (Wall.merge weight (fetches provider r calendarIds)) <->
    e ∈ Wall.merge weight (fetches provider r calendarIds) /\
    ~ Spec.startsOnDateOf fromISO isValid toISODate now e).
  { intros e. rewrite !list_elem_of_In, filter_In, <- startKey_today by exact Hkey.
    destruct (Wall.strictEquals (startKey e) (toISODate now)); simpl;
      intuition congruence. }
  assert (Htoday : forall e,
    e ∈ List.filter
          (fun e => Wall.strictEquals (startKey e) (toISODate now))
          (Wall.merge weight (fetches provider r calendarIds)) <->
    e ∈ Wall.merge weight (fetches provider r calendarIds) /\
    Spec.startsOnDateOf fromISO isValid toISODate now e).
  { intros e. rewrite !list_elem_of_In, filter_In.
    now rewrite (startKey_today now e Hkey). }
  split; [exact Htoday|]. split; [exact Hup|]. split.
  - intros e Hinvalid Hin. apply Hup. split; [exact Hin|].
    intros [Hvalid _]. congruence.
  - apply filter_split_Permutation.
Qed.

Lemma formatEventTime_cases startIso allDay :
  (allDay = true -> formatEventTime startIso allDay = "All day") /\
  (allDay = false -> isValid (fromISO startIso) = true ->
   formatEventTime startIso allDay = toFormat (fromISO startIso) "h:mm a") /\
  (allDay = false -> isValid (fromISO startIso) = false ->
   formatEventTime startIso allDay = "").
Proof.
  unfold Wall.formatEventTime. repeat split.
  - now intros ->.
  - now intros -> ->.
  - now intros -> ->.
Qed.

(** Every event of the merged list is the normalization of a provider
    event of one of the calendars. *)
Lemma merged_normalized provider r calendarIds e :
  e ∈ Wall.merge weight (fetches provider r calendarIds) ->
  exists c raw, e = normalize c raw.
Proof.
  unfold Wall.merge. rewrite JsFacts.sort_Permutation.
  induction calendarIds as [|c ids IH].
  - intros H. inversion H.
  - rewrite wall_fetches_cons, EventsEndpoint.fulfilments_cons.
    destruct (provider (Wall.listRequest c r)) as [resp|reason];
      cbn [thenMap flat_map]; [|exact IH].
    rewrite elem_of_app. intros [Hhere|Hrest]; [|now apply IH].
    unfold Wall.fetched in Hhere. apply list_elem_of_In, in_map_iff in Hhere.
    destruct Hhere as (raw & <- & _). now exists c, raw.
Qed.

(** C6: for every event of the wall view, [displayTime] is "All day"
    when the event is all-day, the hour:minute am/pm rendering of its
    start in the configured zone when the event is timed and its start
    parses, and the empty string when the start does not parse; the view
    is produced, so computing it does not fail. *)
Theorem displayTime_of_wall_events
    TZ calendarIds queryDays now provider order r :
  wallRange queryDays now = returned r ->
  Spec.settlesAll (length calendarIds) order ->
  exists body,
    getWall TZ (returned calendarIds) queryDays now provider order
    = Some (json body) /\
    forall e, e ∈ Wall.today body ++ Wall.upcoming body ->
      (Wall.allDay e = true -> Wall.displayTime e = "All day") /\
      (Wall.allDay e = false -> isValid (fromISO (Wall.start e)) = true ->
       Wall.displayTime e = toFormat (fromISO (Wall.start e)) "h:mm a") /\
      (Wall.allDay e = false -> isValid (fromISO (Wall.start e)) = false ->
       Wall.displayTime e = "").
Proof.
  intros Hr Hall. eexists.
  split; [exact (getWall_responds _ _ _ _ _ _ r Hr Hall)|].
  intros e. rewrite respond_today, respond_upcoming, elem_of_app.
  rewrite !list_elem_of_In, !filter_In, <- !list_elem_of_In.
  intros Hin.
  assert (Hmerged : e ∈ Wall.merge weight (fetches provider r calendarIds))
    by (destruct Hin as [[H _]|[H _]]; exact H).
  apply merged_normalized in Hmerged as (c & raw & ->).
  apply formatEventTime_cases.
Qed.

End Handler.

(** The request of 2024-03-01 09:00 UTC for a calendar that returns the
    all-day event of that day, an event without a start and an event of
    the next day. *)
Lemma today_iff_starts_on_request_date_witness :
  exists body,
    Examples.getWall "UTC" (getCalendarIds Examples.oneCalendar) Js.undefined
      Examples.now Examples.oneWithoutStart [0]%nat
    = Some (json body) /\
    let events :=
      Wall.merge Reference.codeUnit
        (Wall.fetches Reference.DateTime Reference.fromISO Reference.isValid
           Reference.toFormat Examples.oneWithoutStart Examples.tenDays ["A"]) in
    (forall e, e ∈ Wall.today body <->
       e ∈ events /\
       Spec.startsOnDateOf Reference.fromISO Reference.isValid
                           Reference.toISODate Examples.now e) /\
    (forall e, e ∈ Wall.upcoming body <->
       e ∈ events /\
       ~ Spec.startsOnDateOf Reference.fromISO Reference.isValid
                             Reference.toISODate Examples.now e) /\
    (forall e, Reference.isValid (Reference.fromISO (Wall.start e)) = false ->
       e ∈ events -> e ∈ Wall.upcoming body) /\
    Wall.today body ++ Wall.upcoming body ≡ₚ events.
Proof.
  apply (today_iff_starts_on_request_date Reference.codeUnit Reference.DateTime
           Reference.plus Reference.toUTCISO Reference.fromISO Reference.isValid
           Reference.toISODate Reference.toFormat "UTC" ["A"] Js.undefined
           Examples.now Examples.oneWithoutStart [0]%nat Examples.tenDays).
  - reflexivity.
  - repeat constructor.
  - discriminate.
Defined.

(** On that request the all-day event alone is put in [today]; the event
    without a start and the event of the next day are in [upcoming]. *)
Example wall_of_one_calendar :
  exists body,
    Examples.getWall "UTC" (getCalendarIds Examples.oneCalendar) Js.undefined
      Examples.now Examples.oneWithoutStart [0]%nat
    = Some (json body) /\
    Wall.todayKey body = Js.str "2024-03-01" /\
    map Wall.id (Wall.today body) = ["A:evt1"] /\
    map Wall.id (Wall.upcoming body) = ["A:evt2"; "A:evt3"] /\
    map Wall.displayTime (Wall.today body ++ Wall.upcoming body)
    = ["All day"; ""; "3:45 PM"].
Proof. eexists. split; [vm_compute; reflexivity|]. repeat split. Qed.

Lemma displayTime_of_wall_events_witness :
  exists body,
    Examples.getWall "UTC" (getCalendarIds Examples.oneCalendar) Js.undefined
      Examples.now Examples.oneWithoutStart [0]%nat
    = Some (json body) /\
    forall e, e ∈ Wall.today body ++ Wall.upcoming body ->
      (Wall.allDay e = true -> Wall.displayTime e = "All day") /\
      (Wall.allDay e = false ->
       Reference.isValid (Reference.fromISO (Wall.start e)) = true ->
       Wall.displayTime e
       = Reference.toFormat (Reference.fromISO (Wall.start e)) "h:mm a") /\
      (Wall.allDay e = false ->
       Reference.isValid (Reference.fromISO (Wall.start e)) = false ->
       Wall.displayTime e = "").
Proof.
  apply (displayTime_of_wall_events Reference.codeUnit Reference.DateTime
           Reference.plus Reference.toUTCISO Reference.fromISO Reference.isValid
           Reference.toISODate Reference.toFormat "UTC" ["A"] Js.undefined
           Examples.now Examples.oneWithoutStart [0]%nat Examples.tenDays).
  - reflexivity.
  - repeat constructor.
Defined.

End WallEndpoint.

(* ================================================================== *)
(** * The [days] parameter of both endpoints *)
(* ================================================================== *)

Module DaysParameter.



(** On the reference host the time a negative number of days from a time
    is an earlier instant, or no time at all. *)
Lemma reference_negative_days (a d : Z) :
  d < 0 ->
  Reference.plus (Some a) d = None \/
  exists b, Reference.plus (Some a) d = Some b /\ b < a.
Proof.
  intros Hd. unfold Reference.plus, Reference.make, Reference.msPerDay.
  destruct (Z.abs (a + d * 86400000) <=? Reference.maxInstant);
    [right | left; reflexivity].
  eexists. split; [reflexivity | lia].
Qed.

Section Handlers.
Variable weight : ascii -> N.
Variable DateTime : Type.
Variable plus : DateTime -> Z -> DateTime.
Variable toUTCISO : DateTime -> Js.value.
Variable fromISO : Js.value -> DateTime.
Variable isValid : DateTime -> bool.
Variable toISODate : DateTime -> Js.value.
Variable toFormat : DateTime -> string -> string.

Abbreviation getEvents := (Server.getEvents weight DateTime plus toUTCISO).
Abbreviation getWall :=
  (Wall.getWall weight DateTime plus toUTCISO fromISO isValid toISODate
                toFormat).
Abbreviation eventsRange := (Server.requestRange DateTime plus toUTCISO).
Abbreviation wallRange := (Wall.requestRange DateTime plus toUTCISO).

Abbreviation window := (Range.window DateTime plus toUTCISO).




End Handlers.


(** On that request [timeMax] is earlier than [timeMin]. *)
Example negative_days_range :
  exists r,
    Server.requestRange Reference.DateTime Reference.plus Reference.toUTCISO
                        (Js.str "-5") Examples.now
    = returned r /\
    Spec.timeMaxEarlier r.
Proof.
  eexists. split; [reflexivity|].
  exists "2024-03-01T09:00:00.000Z", "2024-02-25T09:00:00.000Z".
  repeat split; [discriminate|].
  apply (JsFacts.localeCompare_lexLe N_of_ascii). vm_compute. discriminate.
Qed.


(** A number of days that reads as an infinity is turned down by
    [plus]: the request is answered with status 500. *)
Example infinite_days_rejected :
  Examples.getEvents "UTC" (getCalendarIds Examples.oneCalendar)
    (Js.str ("-1" +:+ string_of_list_ascii (repeat "0"%char 400)))
    Examples.now Examples.bothSucceed [0]%nat
  = Some (status500 "Invalid unit value NaN").
Proof. vm_compute. reflexivity. Qed.

End DaysParameter.

(* ================================================================== *)
(** * [getCalendarIds]: what it returns and when it throws *)
(* ================================================================== *)

Module ConfiguredCalendars.

Lemma trimStart_fixed (c : ascii) (s : string) :
  Js.isWhiteSpace c = false -> Js.trimStart (String c s) = String c s.
Proof. intros H. simpl. now rewrite H. Qed.

Lemma trimStart_head (s : string) :
  Js.trimStart s = ""
  \/ exists c t, Js.trimStart s = String c t /\ Js.isWhiteSpace c = false.
Proof.
  induction s as [|c s IH]; simpl; [now left|].
  destruct (Js.isWhiteSpace c) eqn:Hc; [exact IH|]. right. eauto.
Qed.

Lemma trimEnd_head (c : ascii) (s : string) :
  Js.isWhiteSpace c = false ->
  exists t, Js.trimEnd (String c s) = String c t.
Proof.
  intros Hc. simpl. destruct (Js.trimEnd s); [rewrite Hc|]; eauto.
Qed.

Lemma trimEnd_idempotent (s : string) : Js.trimEnd (Js.trimEnd s) = Js.trimEnd s.
Proof.
  induction s as [|c s IH]; [reflexivity|]. simpl.
  destruct (Js.trimEnd s) as [|d t] eqn:Ht.
  - destruct (Js.isWhiteSpace c) eqn:Hc; [reflexivity|]. simpl. now rewrite Hc.
  - change (Js.trimEnd (String c (String d t)))
      with (match Js.trimEnd (String d t) with
            | EmptyString =>
                if Js.isWhiteSpace c then EmptyString else String c EmptyString
            | u => String c u
            end).
    now rewrite IH.
Qed.

Lemma trim_idempotent (s : string) : Js.trim (Js.trim s) = Js.trim s.
Proof.
  unfold Js.trim.
  destruct (trimStart_head s) as [-> | (c & t & -> & Hc)]; [reflexivity|].
  destruct (trimEnd_head c t Hc) as [u Hu]. rewrite Hu.
  rewrite (trimStart_fixed c u Hc), <- Hu. apply trimEnd_idempotent.
Qed.

Lemma trimStart_chars (x : ascii) (s : string) :
  x ∈ list_ascii_of_string (Js.trimStart s) -> x ∈ list_ascii_of_string s.
Proof.
  induction s as [|c s IH]; simpl; [auto|].
  destruct (Js.isWhiteSpace c); [|auto].
  intros H. apply elem_of_cons. right. now apply IH.
Qed.

Lemma trimEnd_chars (x : ascii) (s : string) :
  x ∈ list_ascii_of_string (Js.trimEnd s) -> x ∈ list_ascii_of_string s.
Proof.
  induction s as [|c s IH]; simpl; [auto|].
  destruct (Js.trimEnd s) as [|d t].
  - destruct (Js.isWhiteSpace c); simpl.
    + intros H. inversion H.
    + intros H. apply elem_of_cons in H as [->|H]; [constructor | inversion H].
  - intros H. apply elem_of_cons in H as [->|H]; [constructor|].
    apply elem_of_cons. right. now apply IH.
Qed.

Lemma trim_chars (x : ascii) (s : string) :
  x ∈ list_ascii_of_string (Js.trim s) -> x ∈ list_ascii_of_string s.
Proof. intros H. now apply trimStart_chars, trimEnd_chars. Qed.

Lemma split_pieces (sep : ascii) (s : string) :
  Forall (fun piece => sep ∉ list_ascii_of_string piece) (Js.split sep s).
Proof.
  induction s as [|c s IH]; simpl.
  - repeat constructor. intros H. inversion H.
  - destruct (Ascii.eqb_spec c sep) as [->|Hne].
    + constructor; [|exact IH]. intros H. inversion H.
    + destruct (Js.split sep s) as [|piece pieces].
      * repeat constructor. simpl. intros H.
        apply elem_of_cons in H as [->|H]; [congruence | inversion H].
      * inversion IH as [|? ? Hpiece Hrest]; subst.
        constructor; [|exact Hrest]. simpl. intros H.
        apply elem_of_cons in H as [->|H]; [congruence | now apply Hpiece].
Qed.

Lemma split_whole (sep : ascii) (s : string) :
  sep ∉ list_ascii_of_string s -> Js.split sep s = [s].
Proof.
  induction s as [|c s IH]; simpl; [reflexivity|]. intros H.
  apply not_elem_of_cons in H as [Hne Hs].
  destruct (Ascii.eqb_spec c sep) as [->|_]; [congruence|].
  now rewrite IH.
Qed.

Lemma split_first (sep : ascii) (a r : string) :
  sep ∉ list_ascii_of_string a ->
  Js.split sep (a +:+ String sep r) = a :: Js.split sep r.
Proof.
  induction a as [|c a IH]; simpl; intros H.
  - now rewrite Ascii.eqb_refl.
  - apply not_elem_of_cons in H as [Hne Ha].
    destruct (Ascii.eqb_spec c sep) as [->|_]; [congruence|].
    now rewrite IH.
Qed.

Lemma split_joinIds (ids : list string) :
  ids <> [] ->
  Forall (fun id => ","%char ∉ list_ascii_of_string id) ids ->
  Js.split "," (Properties.joinIds ids) = ids.
Proof.
  induction ids as [|id rest IH]; [congruence|]. intros _ Hall.
  inversion Hall as [|? ? Hid Hrest]; subst.
  destruct rest as [|id' rest'].
  - simpl. now apply split_whole.
  - change (Properties.joinIds (id :: id' :: rest'))
      with (id +:+ String "," (Properties.joinIds (id' :: rest'))).
    rewrite split_first by exact Hid. f_equal. now apply IH.
Qed.

Lemma listed_clean (env : Env) : Forall Properties.cleanId (Properties.listed env).
Proof.
  unfold Properties.listed. apply List.Forall_forall. intros id Hin.
  apply filter_In in Hin as [Hin Hne]. apply in_map_iff in Hin as (piece & <- & Hin).
  repeat split.
  - intros Heq. rewrite Heq in Hne. discriminate.
  - apply trim_idempotent.
  - intros Hcomma. apply trim_chars in Hcomma.
    pose proof (split_pieces ","%char
                  (Js.orString (GOOGLE_CALENDAR_IDS env) "")) as Hpieces.
    rewrite List.Forall_forall in Hpieces. now apply (Hpieces piece).
Qed.

(** Whatever the environment, the list [getCalendarIds] returns is not
    empty and each of its ids is trimmed. *)
Theorem getCalendarIds_returns_trimmed_ids (env : Env) (ids : list string) :
  getCalendarIds env = returned ids ->
  ids <> [] /\ Forall (fun id => Js.trim id = id) ids.
Proof.
  unfold getCalendarIds. fold (Properties.listed env).
  pose proof (listed_clean env) as Hclean.
  destruct (Properties.listed env) as [|c l].
  - destruct (Js.truthy _); [|discriminate]. intros [= <-].
    split; [discriminate|]. repeat constructor. apply trim_idempotent.
  - intros [= <-]. split; [discriminate|].
    eapply Forall_impl; [exact Hclean|]. now intros id (_ & H & _).
Qed.

Lemma getCalendarIds_returns_trimmed_ids_witness :
  ["A"; "B"] <> [] /\ Forall (fun id => Js.trim id = id) ["A"; "B"].
Proof.
  apply (getCalendarIds_returns_trimmed_ids Examples.twoCalendars ["A"; "B"]).
  reflexivity.
Defined.

(** When [GOOGLE_CALENDAR_IDS] lists at least one id, exactly the listed
    ids are returned, in order, whatever [GOOGLE_CALENDAR_ID] holds; each
    is non-empty, trimmed and free of commas. *)
Theorem listed_calendars_take_precedence (env : Env) (single : Js.value) :
  Properties.listed env <> [] ->
  getCalendarIds {| GOOGLE_CALENDAR_IDS := GOOGLE_CALENDAR_IDS env;
                    GOOGLE_CALENDAR_ID := single |}
  = returned (Properties.listed env) /\
  Forall Properties.cleanId (Properties.listed env).
Proof.
  intros Hne. split; [|apply listed_clean].
  unfold getCalendarIds. cbn [GOOGLE_CALENDAR_IDS GOOGLE_CALENDAR_ID].
  fold (Properties.listed env). now destruct (Properties.listed env).
Qed.

Lemma listed_calendars_take_precedence_witness :
  getCalendarIds {| GOOGLE_CALENDAR_IDS := Js.str "A, B";
                    GOOGLE_CALENDAR_ID := Js.str "old" |}
  = returned (Properties.listed Examples.twoCalendars) /\
  Forall Properties.cleanId (Properties.listed Examples.twoCalendars).
Proof.
  apply (listed_calendars_take_precedence Examples.twoCalendars (Js.str "old")).
  discriminate.
Defined.

Lemma split_nonempty (sep : ascii) (s : string) : Js.split sep s <> [].
Proof.
  destruct s as [|c s]; simpl; [discriminate|].
  destruct (Ascii.eqb c sep); [discriminate|].
  destruct (Js.split sep s); discriminate.
Qed.

(** The characters of a string are the separators and the characters of
    its pieces. *)
Lemma split_all_chars (sep : ascii) (Q : ascii -> Prop) (s : string) :
  Forall (fun c => c = sep \/ Q c) (list_ascii_of_string s) <->
  Forall (fun piece => Forall Q (list_ascii_of_string piece)) (Js.split sep s).
Proof.
  induction s as [|c s IH]; simpl.
  - split; intros _; repeat constructor.
  - rewrite Forall_cons, IH.
    destruct (Ascii.eqb_spec c sep) as [->|Hne].
    + rewrite Forall_cons. simpl. intuition constructor.
    + pose proof (split_nonempty sep s) as Hsplit.
      destruct (Js.split sep s) as [|piece pieces]; [congruence|].
      rewrite !Forall_cons. simpl. rewrite Forall_cons. intuition congruence.
Qed.

Lemma trimStart_empty_iff (s : string) :
  Js.trimStart s = "" <->
  Forall (fun c => Js.isWhiteSpace c = true) (list_ascii_of_string s).
Proof.
  induction s as [|c s IH]; simpl.
  - split; [constructor | reflexivity].
  - rewrite Forall_cons. destruct (Js.isWhiteSpace c).
    + rewrite IH. intuition.
    + split; [discriminate | now intros [? _]].
Qed.

Lemma trim_empty_iff (s : string) :
  Js.trim s = "" <->
  Forall (fun c => Js.isWhiteSpace c = true) (list_ascii_of_string s).
Proof.
  rewrite <- trimStart_empty_iff. unfold Js.trim.
  destruct (trimStart_head s) as [-> | (c & t & -> & Hc)]; [reflexivity|].
  destruct (trimEnd_head c t Hc) as [u ->]. split; discriminate.
Qed.

Lemma listed_empty_iff (env : Env) :
  Properties.listed env = [] <->
  Properties.namesNoCalendar (GOOGLE_CALENDAR_IDS env).
Proof.
  unfold Properties.listed, Properties.namesNoCalendar.
  rewrite (split_all_chars ","%char (fun c => Js.isWhiteSpace c = true)).
  induction (Js.split "," (Js.orString (GOOGLE_CALENDAR_IDS env) ""))
    as [|piece pieces IH]; simpl.
  - split; [constructor | reflexivity].
  - rewrite Forall_cons, <- trim_empty_iff, <- IH.
    destruct (String.eqb_spec (Js.trim piece) ""); simpl.
    + intuition.
    + split; [discriminate | now intros [? _]].
Qed.

(** [getCalendarIds] throws exactly when [GOOGLE_CALENDAR_IDS] is unset
    or holds nothing but commas and white space, and [GOOGLE_CALENDAR_ID]
    is unset or empty; the message then names both variables. *)
Theorem getCalendarIds_throws_iff_unconfigured (env : Env) (message : string) :
  getCalendarIds env = thrown message <->
  Properties.namesNoCalendar (GOOGLE_CALENDAR_IDS env) /\
  Js.truthy (GOOGLE_CALENDAR_ID env) = false /\
  message = "Missing GOOGLE_CALENDAR_IDS (or GOOGLE_CALENDAR_ID)".
Proof.
  rewrite <- listed_empty_iff.
  unfold getCalendarIds. fold (Properties.listed env).
  destruct (Properties.listed env) as [|c l].
  - destruct (Js.truthy (GOOGLE_CALENDAR_ID env)); split.
    + discriminate.
    + now intros (_ & [=] & _).
    + now intros [= <-].
    + now intros (_ & _ & ->).
  - split; [discriminate | now intros ([=] & _)].
Qed.

(** Every non-empty list of non-empty, trimmed, comma-free ids can be
    configured: written comma-separated in [GOOGLE_CALENDAR_IDS] it is
    returned as it is, whatever [GOOGLE_CALENDAR_ID] holds. *)
Theorem listed_ids_round_trip (ids : list string) (single : Js.value) :
  ids <> [] ->
  Forall Properties.cleanId ids ->
  getCalendarIds {| GOOGLE_CALENDAR_IDS := Js.str (Properties.joinIds ids);
                    GOOGLE_CALENDAR_ID := single |}
  = returned ids.
Proof.
  intros Hne Hclean. unfold getCalendarIds. cbn [GOOGLE_CALENDAR_IDS].
  assert (Hjoined : Properties.joinIds ids <> "").
  { destruct ids as [|id [|id' rest]]; [congruence| |].
    - inversion Hclean as [|? ? (H & _) _]; subst. exact H.
    - inversion Hclean as [|? ? (H & _) _]; subst. simpl.
      destruct id; [congruence | discriminate]. }
  replace (Js.orString (Js.str (Properties.joinIds ids)) "")
    with (Properties.joinIds ids)
    by (simpl; now destruct (String.eqb_spec (Properties.joinIds ids) "")).
  rewrite split_joinIds;
    [|exact Hne | eapply Forall_impl; [exact Hclean | now intros id (_ & _ & H)]].
  assert (Hkept : List.filter (fun s => negb (String.eqb s "")) (map Js.trim ids)
                  = ids).
  { clear Hne Hjoined. induction Hclean as [|id rest (Hid & Htrim & _) _ IH];
      [reflexivity|].
    simpl. rewrite Htrim, IH.
    now destruct (String.eqb_spec id ""). }
  rewrite Hkept. destruct ids; [congruence | reflexivity].
Qed.

Lemma listed_ids_round_trip_witness :
  getCalendarIds
    {| GOOGLE_CALENDAR_IDS :=
         Js.str (Properties.joinIds ["family@group.calendar"; "a b"; "x"]);
       GOOGLE_CALENDAR_ID := Js.undefined |}
  = returned ["family@group.calendar"; "a b"; "x"].
Proof.
  apply (listed_ids_round_trip ["family@group.calendar"; "a b"; "x"]
           Js.undefined).
  - discriminate.
  - repeat constructor; try discriminate; try reflexivity;
      vm_compute; intros H; repeat (apply elem_of_cons in H as [H|H];
      [discriminate H|]); inversion H.
Defined.

End ConfiguredCalendars.

(* ================================================================== *)
(** * [GET /events]: further properties of the response *)
(* ================================================================== *)

Module EventsProperties.

Lemma filter_insert {A : Type} (comparefn : A -> A -> Z) (p : A -> bool)
    (x : A) (l : list A) :
  (forall a b, p a = true -> p b = true -> comparefn a b <= 0) ->
  List.filter p (Js.insert comparefn x l) = List.filter p (x :: l).
Proof.
  intros Hp. induction l as [|y l IH]; [reflexivity|].
  cbn [Js.insert]. destruct (Z.leb_spec (comparefn x y) 0) as [Hle|Hgt];
    [reflexivity|].
  cbn [List.filter] in *. rewrite IH.
  destruct (p x) eqn:Hx, (p y) eqn:Hy; try reflexivity.
  specialize (Hp x y Hx Hy). lia.
Qed.

(** The sort is stable: the elements of a class of mutually tied elements
    come out in the order in which they went in. *)
Lemma filter_sort {A : Type} (comparefn : A -> A -> Z) (p : A -> bool)
    (l : list A) :
  (forall a b, p a = true -> p b = true -> comparefn a b <= 0) ->
  List.filter p (Js.sort comparefn l) = List.filter p l.
Proof.
  intros Hp. induction l as [|x l IH]; [reflexivity|].
  cbn [Js.sort fold_right]. rewrite filter_insert by exact Hp.
  cbn [List.filter]. fold (Js.sort comparefn l). now rewrite IH.
Qed.

Lemma contribution_length provider r calendarIds :
  length (flat_map (Spec.contribution provider r) calendarIds)
  = Properties.fetchedCount provider r calendarIds.
Proof.
  unfold Properties.fetchedCount.
  induction calendarIds as [|c ids IH]; [reflexivity|].
  cbn [flat_map]. rewrite !length_app, IH. f_equal.
  unfold Spec.contribution.
  destruct (provider (Server.listRequest c r)); [apply length_map | reflexivity].
Qed.

Lemma omap_lengths provider r calendarIds :
  (length (omap (Spec.succeededId provider r) calendarIds)
   + length (omap (Spec.failureMessage provider r) calendarIds))%nat
  = length calendarIds.
Proof.
  induction calendarIds as [|c ids IH]; [reflexivity|].
  rewrite !EventsEndpoint.omap_cons.
  unfold Spec.succeededId at 1, Spec.failureMessage at 1, Spec.fails.
  destruct (provider (Server.listRequest c r)); simpl; lia.
Qed.

Lemma contribution_provenance provider r calendarIds e :
  e ∈ flat_map (Spec.contribution provider r) calendarIds ->
  Server.sourceCalendarId e ∈ omap (Spec.succeededId provider r) calendarIds /\
  exists raw, e = Server.normalize (Server.sourceCalendarId e) raw.
Proof.
  induction calendarIds as [|c ids IH]; [intros H; inversion H|].
  cbn [flat_map]. rewrite elem_of_app, EventsEndpoint.omap_cons.
  unfold Spec.contribution at 1, Spec.succeededId at 1, Spec.fails.
  destruct (provider (Server.listRequest c r)) as [resp|reason]; simpl.
  - intros [Hhere|Hrest].
    + apply list_elem_of_In, in_map_iff in Hhere as (raw & <- & _).
      split; [constructor | now exists raw].
    + destruct (IH Hrest) as [Hin Hraw]. split; [now constructor | exact Hraw].
  - intros [Hhere|Hrest]; [inversion Hhere | now apply IH].
Qed.

Lemma nothing_when_all_fail provider r calendarIds :
  Forall (fun c => Spec.fails provider r c = true) calendarIds ->
  flat_map (Spec.contribution provider r) calendarIds = [] /\
  omap (Spec.succeededId provider r) calendarIds = [] /\
  length (omap (Spec.failureMessage provider r) calendarIds)
  = length calendarIds.
Proof.
  induction 1 as [|c ids Hc _ IH]; [auto|].
  destruct IH as (IH1 & IH2 & IH3).
  cbn [flat_map]. rewrite !EventsEndpoint.omap_cons.
  unfold Spec.contribution at 1, Spec.succeededId at 1,
    Spec.failureMessage at 1.
  rewrite Hc. unfold Spec.fails in Hc.
  destruct (provider (Server.listRequest c r)); [discriminate|].
  simpl. rewrite IH1, IH2, IH3. auto.
Qed.

Lemma everything_when_all_succeed provider r calendarIds :
  Forall (fun c => Spec.fails provider r c = false) calendarIds ->
  omap (Spec.failureMessage provider r) calendarIds = [] /\
  omap (Spec.succeededId provider r) calendarIds = calendarIds.
Proof.
  induction 1 as [|c ids Hc _ IH]; [auto|].
  destruct IH as [IH1 IH2]. rewrite !EventsEndpoint.omap_cons.
  unfold Spec.succeededId at 1, Spec.failureMessage at 1.
  rewrite Hc. unfold Spec.fails in Hc.
  destruct (provider (Server.listRequest c r)); [|discriminate].
  now rewrite IH1, IH2.
Qed.

Section Handler.
Variable weight : ascii -> N.
Variable DateTime : Type.
Variable plus : DateTime -> Z -> DateTime.
Variable toUTCISO : DateTime -> Js.value.

Abbreviation getEvents := (Server.getEvents weight DateTime plus toUTCISO).
Abbreviation requestRange := (Server.requestRange DateTime plus toUTCISO).
Abbreviation responds :=
  (EventsEndpoint.getEvents_responds weight DateTime plus toUTCISO).

(** The answer of [GET /events] does not depend on the order in which
    the fetches complete: any two orders under which every fetch settles
    give the same response. *)
Theorem response_independent_of_completion_order
    TZ calendarIds queryDays now provider order1 order2 :
  Spec.settlesAll (length calendarIds) order1 ->
  Spec.settlesAll (length calendarIds) order2 ->
  getEvents TZ (returned calendarIds) queryDays now provider order1
  = getEvents TZ (returned calendarIds) queryDays now provider order2.
Proof.
  intros H1 H2. destruct (requestRange queryDays now) as [r|message] eqn:Hr.
  - now rewrite (responds _ _ _ _ _ _ r Hr H1), (responds _ _ _ _ _ _ r Hr H2).
  - unfold Server.getEvents. now rewrite Hr.
Qed.

(** The handler waits for every fetch: as long as one of them has not
    settled, nothing is answered. *)
Theorem no_answer_before_all_settle
    TZ calendarIds queryDays now provider order r i :
  requestRange queryDays now = returned r ->
  (i < length calendarIds)%nat ->
  i ∉ order ->
  getEvents TZ (returned calendarIds) queryDays now provider order = None.
Proof.
  intros Hr Hi Hnot. unfold Server.getEvents. rewrite Hr.
  rewrite (JsFacts.allSettled_pending _ order i); [reflexivity | | exact Hnot].
  unfold Server.fetches. now rewrite length_map.
Qed.

(** [count] is the number of events listed, which is the number of
    provider events of the calendars that succeeded; and every requested
    calendar is either among the succeeded ones or accounted for by one
    error. *)
Theorem counts_add_up TZ calendarIds queryDays now provider order r :
  requestRange queryDays now = returned r ->
  Spec.settlesAll (length calendarIds) order ->
  exists body,
    getEvents TZ (returned calendarIds) queryDays now provider order
    = Some (json body) /\
    Server.count body = length (Server.events body) /\
    Server.count body = Properties.fetchedCount provider r calendarIds /\
    (length (Server.calendarsSucceeded body) + length (Server.errors body))%nat
    = length (Server.calendarsRequested body).
Proof.
  intros Hr Hall. eexists. split; [exact (responds _ _ _ _ _ _ r Hr Hall)|].
  cbn [Server.respond Server.count Server.events Server.calendarsSucceeded
       Server.errors Server.calendarsRequested].
  split; [reflexivity|]. split.
  - unfold Server.merge.
    rewrite (Permutation_length (JsFacts.sort_Permutation _ _)).
    rewrite EventsEndpoint.events_of_fetches. apply contribution_length.
  - rewrite EventsEndpoint.succeeded_of_fetches, EventsEndpoint.errors_of_fetches.
    apply omap_lengths.
Qed.

(** Every event of the response names, as its source, a calendar listed
    in [calendarsSucceeded]; it is the normalization of a provider event
    for that calendar, and its id starts with the calendar id and a
    colon. *)
Theorem events_come_from_succeeded_calendars
    TZ calendarIds queryDays now provider order r :
  requestRange queryDays now = returned r ->
  Spec.settlesAll (length calendarIds) order ->
  exists body,
    getEvents TZ (returned calendarIds) queryDays now provider order
    = Some (json body) /\
    forall e, e ∈ Server.events body ->
      Server.sourceCalendarId e ∈ Server.calendarsSucceeded body /\
      (exists raw, e = Server.normalize (Server.sourceCalendarId e) raw) /\
      exists rest, Server.id e = Server.sourceCalendarId e +:+ ":" +:+ rest.
Proof.
  intros Hr Hall. eexists. split; [exact (responds _ _ _ _ _ _ r Hr Hall)|].
  cbn [Server.respond Server.events Server.calendarsSucceeded].
  intros e. unfold Server.merge. rewrite JsFacts.sort_Permutation.
  rewrite EventsEndpoint.events_of_fetches, EventsEndpoint.succeeded_of_fetches.
  intros Hin. destruct (contribution_provenance _ _ _ _ Hin) as [Hsrc [raw Hraw]].
  split; [exact Hsrc|]. split; [now exists raw|].
  exists (Js.toString (Calendar.id raw)). now rewrite Hraw at 1.
Qed.

(** When every fetch fails the request is still answered with a body:
    no events, a count of zero, no succeeded calendar and one error per
    requested calendar. *)
Theorem all_fetches_fail TZ calendarIds queryDays now provider order r :
  requestRange queryDays now = returned r ->
  Spec.settlesAll (length calendarIds) order ->
  Forall (fun c => Spec.fails provider r c = true) calendarIds ->
  exists body,
    getEvents TZ (returned calendarIds) queryDays now provider order
    = Some (json body) /\
    Server.events body = [] /\
    Server.count body = 0%nat /\
    Server.calendarsSucceeded body = [] /\
    length (Server.errors body) = length calendarIds.
Proof.
  intros Hr Hall Hfail. eexists.
  split; [exact (responds _ _ _ _ _ _ r Hr Hall)|].
  cbn [Server.respond Server.count Server.events Server.calendarsSucceeded
       Server.errors].
  destruct (nothing_when_all_fail provider r calendarIds Hfail)
    as (H1 & H2 & H3).
  assert (Hmerge : Server.merge weight
                     (fulfilments (Server.fetches provider r calendarIds)) = []).
  { unfold Server.merge. now rewrite EventsEndpoint.events_of_fetches, H1. }
  rewrite Hmerge, EventsEndpoint.succeeded_of_fetches,
    EventsEndpoint.errors_of_fetches.
  auto.
Qed.

(** When every fetch succeeds there is no error and the succeeded
    calendars are the requested ones, in the same order. *)
Theorem all_fetches_succeed TZ calendarIds queryDays now provider order r :
  requestRange queryDays now = returned r ->
  Spec.settlesAll (length calendarIds) order ->
  Forall (fun c => Spec.fails provider r c = false) calendarIds ->
  exists body,
    getEvents TZ (returned calendarIds) queryDays now provider order
    = Some (json body) /\
    Server.errors body = [] /\
    Server.calendarsSucceeded body = Server.calendarsRequested body.
Proof.
  intros Hr Hall Hok. eexists.
  split; [exact (responds _ _ _ _ _ _ r Hr Hall)|].
  cbn [Server.respond Server.calendarsSucceeded Server.errors
       Server.calendarsRequested].
  rewrite EventsEndpoint.succeeded_of_fetches, EventsEndpoint.errors_of_fetches.
  apply everything_when_all_succeed, Hok.
Qed.

Lemma tiedWith_tied key (a b : Server.Event) :
  Properties.tiedWith weight key a = true ->
  Properties.tiedWith weight key b = true ->
  Server.compareStart weight a b <= 0.
Proof.
  unfold Properties.tiedWith, Server.compareStart, Spec.startOrEmpty.
  intros Ha Hb. apply Z.eqb_eq in Ha, Hb.
  apply (JsFacts.localeCompare_trans weight _ key); [lia|].
  rewrite JsFacts.localeCompare_flip. lia.
Qed.

(** Events whose starts compare equal keep their order: that of the
    requested calendars and, within a calendar, that of the provider. *)
Theorem ties_keep_request_then_provider_order
    TZ calendarIds queryDays now provider order r :
  requestRange queryDays now = returned r ->
  Spec.settlesAll (length calendarIds) order ->
  exists body,
    getEvents TZ (returned calendarIds) queryDays now provider order
    = Some (json body) /\
    forall key,
      List.filter (Properties.tiedWith weight key) (Server.events body)
      = List.filter (Properties.tiedWith weight key)
                    (flat_map (Spec.contribution provider r) calendarIds).
Proof.
  intros Hr Hall. eexists. split; [exact (responds _ _ _ _ _ _ r Hr Hall)|].
  cbn [Server.respond Server.events]. intros key. unfold Server.merge.
  rewrite filter_sort by apply tiedWith_tied.
  now rewrite EventsEndpoint.events_of_fetches.
Qed.

(** No answer of [GET /events] reports a range of more than 365 days. *)
Theorem events_days_never_exceed_365
    TZ configured queryDays now provider order body :
  getEvents TZ configured queryDays now provider order = Some (json body) ->
  Range.days (Server.range body) <= 365.
Proof.
  unfold Server.getEvents, Server.requestRange.
  destruct (Js.mathMin _ 365) as [|days|negative] eqn:Hmin;
    [discriminate| |discriminate].
  destruct configured as [calendarIds|message]; [|discriminate].
  destruct (Js.allSettled _ order); [|discriminate].
  intros [= <-]. cbn [Server.respond Server.range Range.days].
  unfold Js.mathMin in Hmin.
  destruct (Js.parseInt10 _) as [|z|[|]]; try discriminate;
    injection Hmin as <-; lia.
Qed.

End Handler.

(** Calendar [A] fails and [B] succeeds, settling in either order. *)
Lemma response_independent_of_completion_order_witness :
  Examples.getEvents "UTC" (getCalendarIds Examples.twoCalendars) Js.undefined
    Examples.now Examples.firstFails [1; 0]%nat
  = Examples.getEvents "UTC" (getCalendarIds Examples.twoCalendars) Js.undefined
      Examples.now Examples.firstFails Properties.inRequestOrder.
Proof.
  apply (response_independent_of_completion_order Reference.codeUnit
           Reference.DateTime Reference.plus Reference.toUTCISO "UTC"
           ["A"; "B"] Js.undefined Examples.now Examples.firstFails
           [1; 0]%nat Properties.inRequestOrder);
    repeat constructor.
Defined.

(** Calendar [B] has settled, calendar [A] has not. *)
Lemma no_answer_before_all_settle_witness :
  Examples.getEvents "UTC" (getCalendarIds Examples.twoCalendars) Js.undefined
    Examples.now Examples.bothSucceed [1]%nat
  = None.
Proof.
  apply (no_answer_before_all_settle Reference.codeUnit Reference.DateTime
           Reference.plus Reference.toUTCISO "UTC" ["A"; "B"] Js.undefined
           Examples.now Examples.bothSucceed [1]%nat Examples.thirtyDays 0%nat).
  - reflexivity.
  - simpl. lia.
  - intros H. apply elem_of_cons in H as [H|H]; [discriminate | inversion H].
Defined.

Lemma counts_add_up_witness :
  exists body,
    Examples.getEvents "UTC" (getCalendarIds Examples.twoCalendars) Js.undefined
      Examples.now Examples.firstFails [1; 0]%nat
    = Some (json body) /\
    Server.count body = length (Server.events body) /\
    Server.count body
    = Properties.fetchedCount Examples.firstFails Examples.thirtyDays
                              ["A"; "B"] /\
    (length (Server.calendarsSucceeded body) + length (Server.errors body))%nat
    = length (Server.calendarsRequested body).
Proof.
  apply (counts_add_up Reference.codeUnit Reference.DateTime Reference.plus
           Reference.toUTCISO "UTC" ["A"; "B"] Js.undefined Examples.now
           Examples.firstFails [1; 0]%nat Examples.thirtyDays).
  - reflexivity.
  - repeat constructor.
Defined.

Lemma events_come_from_succeeded_calendars_witness :
  exists body,
    Examples.getEvents "UTC" (getCalendarIds Examples.twoCalendars) Js.undefined
      Examples.now Examples.firstFails [1; 0]%nat
    = Some (json body) /\
    forall e, e ∈ Server.events body ->
      Server.sourceCalendarId e ∈ Server.calendarsSucceeded body /\
      (exists raw, e = Server.normalize (Server.sourceCalendarId e) raw) /\
      exists rest, Server.id e = Server.sourceCalendarId e +:+ ":" +:+ rest.
Proof.
  apply (events_come_from_succeeded_calendars Reference.codeUnit
           Reference.DateTime Reference.plus Reference.toUTCISO "UTC"
           ["A"; "B"] Js.undefined Examples.now Examples.firstFails
           [1; 0]%nat Examples.thirtyDays).
  - reflexivity.
  - repeat constructor.
Defined.

Lemma all_fetches_fail_witness :
  exists body,
    Examples.getEvents "UTC" (getCalendarIds Examples.twoCalendars) Js.undefined
      Examples.now Examples.bothFail [1; 0]%nat
    = Some (json body) /\
    Server.events body = [] /\
    Server.count body = 0%nat /\
    Server.calendarsSucceeded body = [] /\
    length (Server.errors body) = length ["A"; "B"].
Proof.
  apply (all_fetches_fail Reference.codeUnit Reference.DateTime Reference.plus
           Reference.toUTCISO "UTC" ["A"; "B"] Js.undefined Examples.now
           Examples.bothFail [1; 0]%nat Examples.thirtyDays).
  - reflexivity.
  - repeat constructor.
  - repeat constructor.
Defined.

Lemma all_fetches_succeed_witness :
  exists body,
    Examples.getEvents "UTC" (getCalendarIds Examples.twoCalendars) Js.undefined
      Examples.now Examples.bothSucceed [1; 0]%nat
    = Some (json body) /\
    Server.errors body = [] /\
    Server.calendarsSucceeded body = Server.calendarsRequested body.
Proof.
  apply (all_fetches_succeed Reference.codeUnit Reference.DateTime
           Reference.plus Reference.toUTCISO "UTC" ["A"; "B"] Js.undefined
           Examples.now Examples.bothSucceed [1; 0]%nat Examples.thirtyDays).
  - reflexivity.
  - repeat constructor.
  - repeat constructor.
Defined.

(** Two calendars that return the same three events: each event of [A]
    is tied with the same event of [B]. *)
Lemma ties_keep_request_then_provider_order_witness :
  exists body,
    Examples.getEvents "UTC" (getCalendarIds Examples.twoCalendars) Js.undefined
      Examples.now Examples.oneWithoutStart [1; 0]%nat
    = Some (json body) /\
    forall key,
      List.filter (Properties.tiedWith Reference.codeUnit key)
                  (Server.events body)
      = List.filter (Properties.tiedWith Reference.codeUnit key)
          (flat_map (Spec.contribution Examples.oneWithoutStart
                                       Examples.thirtyDays) ["A"; "B"]).
Proof.
  apply (ties_keep_request_then_provider_order Reference.codeUnit
           Reference.DateTime Reference.plus Reference.toUTCISO "UTC"
           ["A"; "B"] Js.undefined Examples.now Examples.oneWithoutStart
           [1; 0]%nat Examples.thirtyDays).
  - reflexivity.
  - repeat constructor.
Defined.

(** On that request the tied events come out calendar [A] first. *)
Example tied_events_in_request_order :
  exists body,
    Examples.getEvents "UTC" (getCalendarIds Examples.twoCalendars) Js.undefined
      Examples.now Examples.oneWithoutStart [1; 0]%nat
    = Some (json body) /\
    map Server.id (Server.events body)
    = ["A:evt2"; "B:evt2"; "A:evt1"; "B:evt1"; "A:evt3"; "B:evt3"].
Proof. eexists. split; [vm_compute; reflexivity | reflexivity]. Qed.

(** The request [days=400]. *)
Lemma events_days_never_exceed_365_witness :
  Range.days
    (Server.range
       (Server.respond Reference.codeUnit "UTC" ["A"]
          (Range.window Reference.DateTime Reference.plus Reference.toUTCISO
                        Examples.now 365)
          (Server.fetches Examples.bothSucceed
             (Range.window Reference.DateTime Reference.plus
                           Reference.toUTCISO Examples.now 365) ["A"])))
  <= 365.
Proof.
  apply (events_days_never_exceed_365 Reference.codeUnit Reference.DateTime
           Reference.plus Reference.toUTCISO "UTC"
           (getCalendarIds Examples.oneCalendar) (Js.str "400") Examples.now
           Examples.bothSucceed [0]%nat).
  reflexivity.
Defined.

End EventsProperties.

(* ================================================================== *)
(** * [GET /wall]: further properties of the response *)
(* ================================================================== *)

Module WallProperties.

Lemma filter_sublist {A : Type} (p : A -> bool) (l : list A) :
  List.filter p l `sublist_of` l.
Proof.
  induction l as [|x l IH]; simpl; [constructor|].
  destruct (p x); now constructor.
Qed.

Lemma StronglySorted_filter {A : Type} (R : A -> A -> Prop) (p : A -> bool)
    (l : list A) :
  StronglySorted R l -> StronglySorted R (List.filter p l).
Proof.
  induction 1 as [|x l Hs IH Hall]; simpl; [constructor|].
  destruct (p x); [|exact IH]. constructor; [exact IH|].
  rewrite List.Forall_forall in *. intros y Hy.
  apply filter_In in Hy as [Hy _]. now apply Hall.
Qed.

Lemma map_insert {A B : Type} (f : A -> B) (cmpA : A -> A -> Z)
    (cmpB : B -> B -> Z) (x : A) (l : list A) :
  (forall a b, cmpB (f a) (f b) = cmpA a b) ->
  map f (Js.insert cmpA x l) = Js.insert cmpB (f x) (map f l).
Proof.
  intros Hcmp. induction l as [|y l IH]; [reflexivity|].
  cbn [Js.insert map]. rewrite Hcmp.
  destruct (cmpA x y <=? 0); [reflexivity|]. cbn [map]. now rewrite IH.
Qed.

(** Sorting commutes with a map that keeps the comparison. *)
Lemma map_sort {A B : Type} (f : A -> B) (cmpA : A -> A -> Z)
    (cmpB : B -> B -> Z) (l : list A) :
  (forall a b, cmpB (f a) (f b) = cmpA a b) ->
  map f (Js.sort cmpA l) = Js.sort cmpB (map f l).
Proof.
  intros Hcmp. induction l as [|x l IH]; [reflexivity|].
  cbn [Js.sort fold_right map].
  rewrite (map_insert f cmpA cmpB) by exact Hcmp.
  f_equal. exact IH.
Qed.

Section Handler.
Variable weight : ascii -> N.
Variable DateTime : Type.
Variable plus : DateTime -> Z -> DateTime.
Variable toUTCISO : DateTime -> Js.value.
Variable fromISO : Js.value -> DateTime.
Variable isValid : DateTime -> bool.
Variable toISODate : DateTime -> Js.value.
Variable toFormat : DateTime -> string -> string.

Abbreviation getWall :=
  (Wall.getWall weight DateTime plus toUTCISO fromISO isValid toISODate
                toFormat).
Abbreviation getEvents := (Server.getEvents weight DateTime plus toUTCISO).
Abbreviation wallRange := (Wall.requestRange DateTime plus toUTCISO).
Abbreviation eventsRange := (Server.requestRange DateTime plus toUTCISO).
Abbreviation fetches := (Wall.fetches DateTime fromISO isValid toFormat).
Abbreviation contribution :=
  (Properties.wallContribution fromISO isValid toFormat).
Abbreviation responds :=
  (WallEndpoint.getWall_responds weight DateTime plus toUTCISO fromISO isValid
     toISODate toFormat).
Abbreviation today_filter :=
  (WallEndpoint.respond_today weight DateTime fromISO isValid toISODate).
Abbreviation upcoming_filter :=
  (WallEndpoint.respond_upcoming weight DateTime fromISO isValid toISODate).

Lemma wall_events_of_fetches provider r calendarIds :
  flat_map (fun value => value) (fulfilments (fetches provider r calendarIds))
  = flat_map (contribution provider r) calendarIds.
Proof.
  induction calendarIds as [|c ids IH]; [reflexivity|].
  rewrite WallEndpoint.wall_fetches_cons, EventsEndpoint.fulfilments_cons.
  cbn [flat_map]. unfold Properties.wallContribution at 1.
  destruct (provider (Wall.listRequest c r)) as [resp|reason];
    cbn [thenMap flat_map]; [|exact IH].
  now rewrite IH.
Qed.

Lemma wall_errors_of_fetches provider r calendarIds :
  rejections (fetches provider r calendarIds)
  = omap (Spec.failureMessage provider r) calendarIds.
Proof.
  induction calendarIds as [|c ids IH]; [reflexivity|].
  rewrite WallEndpoint.wall_fetches_cons, EventsEndpoint.rejections_cons,
    EventsEndpoint.omap_cons.
  unfold Spec.failureMessage at 1.
  change (Server.listRequest c r) with (Wall.listRequest c r).
  destruct (provider (Wall.listRequest c r)) as [resp|reason];
    cbn [thenMap]; [exact IH|].
  now rewrite IH.
Qed.

Lemma wall_contribution_length provider r calendarIds :
  length (flat_map (contribution provider r) calendarIds)
  = Properties.fetchedCount provider r calendarIds.
Proof.
  unfold Properties.fetchedCount.
  induction calendarIds as [|c ids IH]; [reflexivity|].
  cbn [flat_map]. rewrite !length_app, IH. f_equal.
  unfold Properties.wallContribution.
  change (Server.listRequest c r) with (Wall.listRequest c r).
  destruct (provider (Wall.listRequest c r)); [apply length_map | reflexivity].
Qed.

Lemma wall_compareStart_total (a b : Wall.Event) :
  0 < Wall.compareStart weight a b -> Wall.compareStart weight b a <= 0.
Proof.
  unfold Wall.compareStart. intros H.
  rewrite JsFacts.localeCompare_flip. lia.
Qed.

Lemma wall_compareStart_trans (a b c : Wall.Event) :
  Wall.compareStart weight a b <= 0 -> Wall.compareStart weight b c <= 0 ->
  Wall.compareStart weight a c <= 0.
Proof. unfold Wall.compareStart. apply JsFacts.localeCompare_trans. Qed.

(** Partial failure under [GET /wall]: the two buckets together hold
    exactly the normalized events of the calendars whose fetch succeeded,
    each once; [errors] lists the messages of the failed ones in request
    order, and [calendars] the requested ids. *)
Theorem wall_shows_events_of_succeeded_calendars
    TZ calendarIds queryDays now provider order r :
  wallRange queryDays now = returned r ->
  Spec.settlesAll (length calendarIds) order ->
  exists body,
    getWall TZ (returned calendarIds) queryDays now provider order
    = Some (json body) /\
    Wall.today body ++ Wall.upcoming body
    ≡ₚ flat_map (contribution provider r) calendarIds /\
    Wall.errors body = omap (Spec.failureMessage provider r) calendarIds /\
    Wall.calendars body = calendarIds.
Proof.
  intros Hr Hall. eexists. split; [exact (responds _ _ _ _ _ _ r Hr Hall)|].
  rewrite today_filter, upcoming_filter. split; [|split].
  - rewrite WallEndpoint.filter_split_Permutation. unfold Wall.merge.
    now rewrite JsFacts.sort_Permutation, wall_events_of_fetches.
  - unfold Wall.respond. destruct (Wall.partition _ _ _ _ _ _).
    cbn [Wall.errors]. apply wall_errors_of_fetches.
  - unfold Wall.respond. now destruct (Wall.partition _ _ _ _ _ _).
Qed.

(** Both buckets keep the merged order: each lists its events in the
    order of the merged sorted list, and so ascending by start. *)
Theorem wall_buckets_keep_sorted_order
    TZ calendarIds queryDays now provider order r :
  wallRange queryDays now = returned r ->
  Spec.settlesAll (length calendarIds) order ->
  exists body,
    getWall TZ (returned calendarIds) queryDays now provider order
    = Some (json body) /\
    Wall.today body
      `sublist_of` Wall.merge weight (fetches provider r calendarIds) /\
    Wall.upcoming body
      `sublist_of` Wall.merge weight (fetches provider r calendarIds) /\
    Sorted (Properties.wallOrder weight) (Wall.today body) /\
    Sorted (Properties.wallOrder weight) (Wall.upcoming body).
Proof.
  intros Hr Hall. eexists. split; [exact (responds _ _ _ _ _ _ r Hr Hall)|].
  rewrite today_filter, upcoming_filter.
  split; [apply filter_sublist|]. split; [apply filter_sublist|].
  assert (Hsorted : forall p,
    Sorted (Properties.wallOrder weight)
      (List.filter p (Wall.merge weight (fetches provider r calendarIds)))).
  { intros p. eapply ListFacts.Sorted_weaken;
      [|apply StronglySorted_Sorted, StronglySorted_filter;
        apply (JsFacts.sort_StronglySorted (Wall.compareStart weight)
                 wall_compareStart_total wall_compareStart_trans)].
    intros a b Hab. apply JsFacts.localeCompare_lexLe. exact Hab. }
  split; apply Hsorted.
Qed.

(** [todayCount] and [upcomingCount] are the sizes of the two buckets,
    and together the number of provider events of the calendars that
    succeeded. *)
Theorem wall_counts_add_up TZ calendarIds queryDays now provider order r :
  wallRange queryDays now = returned r ->
  Spec.settlesAll (length calendarIds) order ->
  exists body,
    getWall TZ (returned calendarIds) queryDays now provider order
    = Some (json body) /\
    Wall.todayCount body = length (Wall.today body) /\
    Wall.upcomingCount body = length (Wall.upcoming body) /\
    (Wall.todayCount body + Wall.upcomingCount body)%nat
    = Properties.fetchedCount provider r calendarIds.
Proof.
  intros Hr Hall. eexists. split; [exact (responds _ _ _ _ _ _ r Hr Hall)|].
  assert (Hcounts : forall b : Wall.Body,
    b = Wall.respond weight DateTime fromISO isValid toISODate TZ calendarIds
          r now (fetches provider r calendarIds) ->
    Wall.todayCount b = length (Wall.today b) /\
    Wall.upcomingCount b = length (Wall.upcoming b)).
  { intros b ->. unfold Wall.respond.
    now destruct (Wall.partition _ _ _ _ _ _). }
  destruct (Hcounts _ eq_refl) as [-> ->].
  split; [reflexivity|]. split; [reflexivity|].
  rewrite <- length_app, today_filter, upcoming_filter.
  rewrite (Permutation_length (WallEndpoint.filter_split_Permutation _ _)).
  unfold Wall.merge.
  rewrite (Permutation_length (JsFacts.sort_Permutation _ _)).
  rewrite wall_events_of_fetches. apply wall_contribution_length.
Qed.

Lemma listings_agree provider r calendarIds :
  map Properties.ofWall (flat_map (contribution provider r) calendarIds)
  = map Properties.ofServer
        (flat_map (Spec.contribution provider r) calendarIds).
Proof.
  induction calendarIds as [|c ids IH]; [reflexivity|].
  cbn [flat_map]. rewrite !map_app, IH. f_equal.
  unfold Properties.wallContribution, Spec.contribution.
  change (Server.listRequest c r) with (Wall.listRequest c r).
  destruct (provider (Wall.listRequest c r)) as [resp|reason]; [|reflexivity].
  rewrite !map_map. reflexivity.
Qed.

(** For one and the same range the wall view and the flat view list the
    same events: the merged list of the wall view says of each event, in
    the same order, what [events] of the flat view says (calendar, id,
    title, all-day flag, start and end); the two buckets hold these
    events, and the errors are the same. *)
Theorem wall_agrees_with_events
    TZ calendarIds queryDays now provider order r :
  eventsRange queryDays now = returned r ->
  wallRange queryDays now = returned r ->
  Spec.settlesAll (length calendarIds) order ->
  exists flat wall,
    getEvents TZ (returned calendarIds) queryDays now provider order
    = Some (json flat) /\
    getWall TZ (returned calendarIds) queryDays now provider order
    = Some (json wall) /\
    map Properties.ofWall (Wall.merge weight (fetches provider r calendarIds))
    = map Properties.ofServer (Server.events flat) /\
    map Properties.ofWall (Wall.today wall ++ Wall.upcoming wall)
    ≡ₚ map Properties.ofServer (Server.events flat) /\
    Wall.errors wall = Server.errors flat.
Proof.
  intros He Hw Hall. eexists. eexists.
  split; [exact (EventsEndpoint.getEvents_responds weight DateTime plus
                   toUTCISO _ _ _ _ _ _ r He Hall)|].
  split; [exact (responds _ _ _ _ _ _ r Hw Hall)|].
  cbn [Server.respond Server.events Server.errors].
  assert (Hmerged :
    map Properties.ofWall (Wall.merge weight (fetches provider r calendarIds))
    = map Properties.ofServer
        (Server.merge weight
           (fulfilments (Server.fetches provider r calendarIds)))).
  { unfold Wall.merge, Server.merge.
    rewrite (map_sort Properties.ofWall (Wall.compareStart weight)
               (fun a b =>
                  Js.localeCompare weight
                    (Js.orString (Properties.start a) "")
                    (Js.orString (Properties.start b) "")))
      by reflexivity.
    rewrite (map_sort Properties.ofServer (Server.compareStart weight)
               (fun a b =>
                  Js.localeCompare weight
                    (Js.orString (Properties.start a) "")
                    (Js.orString (Properties.start b) "")))
      by reflexivity.
    now rewrite wall_events_of_fetches, EventsEndpoint.events_of_fetches,
      listings_agree. }
  split; [exact Hmerged|]. split.
  - rewrite <- Hmerged, today_filter, upcoming_filter.
    now rewrite WallEndpoint.filter_split_Permutation.
  - rewrite EventsEndpoint.errors_of_fetches.
    unfold Wall.respond. destruct (Wall.partition _ _ _ _ _ _).
    cbn [Wall.errors]. apply wall_errors_of_fetches.
Qed.

(** No answer of [GET /wall] reports more than 60 days. *)
Theorem wall_days_never_exceed_60
    TZ configured queryDays now provider order body :
  getWall TZ configured queryDays now provider order = Some (json body) ->
  Wall.days body <= 60.
Proof.
  unfold Wall.getWall, Wall.requestRange.
  destruct (Js.mathMin _ 60) as [|days|negative] eqn:Hmin;
    [discriminate| |discriminate].
  destruct configured as [calendarIds|message]; [|discriminate].
  destruct (Js.allSettled _ order); [|discriminate].
  intros [= <-]. unfold Wall.respond. destruct (Wall.partition _ _ _ _ _ _).
  cbn [Wall.days Range.days].
  unfold Js.mathMin in Hmin.
  destruct (Js.parseInt10 _) as [|z|[|]]; try discriminate;
    injection Hmin as <-; lia.
Qed.

End Handler.

Lemma wall_shows_events_of_succeeded_calendars_witness :
  exists body,
    Examples.getWall "UTC" (getCalendarIds Examples.twoCalendars) Js.undefined
      Examples.now Examples.firstFails [1; 0]%nat
    = Some (json body) /\
    Wall.today body ++ Wall.upcoming body
    ≡ₚ flat_map (Properties.wallContribution Reference.fromISO
                   Reference.isValid Reference.toFormat Examples.firstFails
                   Examples.tenDays) ["A"; "B"] /\
    Wall.errors body
    = omap (Spec.failureMessage Examples.firstFails Examples.tenDays)
           ["A"; "B"] /\
    Wall.calendars body = ["A"; "B"].
Proof.
  apply (wall_shows_events_of_succeeded_calendars Reference.codeUnit
           Reference.DateTime Reference.plus Reference.toUTCISO
           Reference.fromISO Reference.isValid Reference.toISODate
           Reference.toFormat "UTC" ["A"; "B"] Js.undefined Examples.now
           Examples.firstFails [1; 0]%nat Examples.tenDays).
  - reflexivity.
  - repeat constructor.
Defined.

Lemma wall_buckets_keep_sorted_order_witness :
  exists body,
    Examples.getWall "UTC" (getCalendarIds Examples.twoCalendars) Js.undefined
      Examples.now Examples.oneWithoutStart [1; 0]%nat
    = Some (json body) /\
    Wall.today body
      `sublist_of` Wall.merge Reference.codeUnit
                     (Wall.fetches Reference.DateTime Reference.fromISO
                        Reference.isValid Reference.toFormat
                        Examples.oneWithoutStart Examples.tenDays ["A"; "B"]) /\
    Wall.upcoming body
      `sublist_of` Wall.merge Reference.codeUnit
                     (Wall.fetches Reference.DateTime Reference.fromISO
                        Reference.isValid Reference.toFormat
                        Examples.oneWithoutStart Examples.tenDays ["A"; "B"]) /\
    Sorted (Properties.wallOrder Reference.codeUnit) (Wall.today body) /\
    Sorted (Properties.wallOrder Reference.codeUnit) (Wall.upcoming body).
Proof.
  apply (wall_buckets_keep_sorted_order Reference.codeUnit
           Reference.DateTime Reference.plus Reference.toUTCISO
           Reference.fromISO Reference.isValid Reference.toISODate
           Reference.toFormat "UTC" ["A"; "B"] Js.undefined Examples.now
           Examples.oneWithoutStart [1; 0]%nat Examples.tenDays).
  - reflexivity.
  - repeat constructor.
Defined.

Lemma wall_counts_add_up_witness :
  exists body,
    Examples.getWall "UTC" (getCalendarIds Examples.twoCalendars) Js.undefined
      Examples.now Examples.oneWithoutStart [1; 0]%nat
    = Some (json body) /\
    Wall.todayCount body = length (Wall.today body) /\
    Wall.upcomingCount body = length (Wall.upcoming body) /\
    (Wall.todayCount body + Wall.upcomingCount body)%nat
    = Properties.fetchedCount Examples.oneWithoutStart Examples.tenDays
                              ["A"; "B"].
Proof.
  apply (wall_counts_add_up Reference.codeUnit
           Reference.DateTime Reference.plus Reference.toUTCISO
           Reference.fromISO Reference.isValid Reference.toISODate
           Reference.toFormat "UTC" ["A"; "B"] Js.undefined Examples.now
           Examples.oneWithoutStart [1; 0]%nat Examples.tenDays).
  - reflexivity.
  - repeat constructor.
Defined.

(** The request [days=7], which both endpoints read as seven days. *)
Lemma wall_agrees_with_events_witness :
  exists flat wall,
    Examples.getEvents "UTC" (getCalendarIds Examples.twoCalendars)
      (Js.str "7") Examples.now Examples.firstFails [1; 0]%nat
    = Some (json flat) /\
    Examples.getWall "UTC" (getCalendarIds Examples.twoCalendars)
      (Js.str "7") Examples.now Examples.firstFails [1; 0]%nat
    = Some (json wall) /\
    map Properties.ofWall
        (Wall.merge Reference.codeUnit
           (Wall.fetches Reference.DateTime Reference.fromISO
              Reference.isValid Reference.toFormat Examples.firstFails
              (Range.window Reference.DateTime Reference.plus
                            Reference.toUTCISO Examples.now 7) ["A"; "B"]))
    = map Properties.ofServer (Server.events flat) /\
    map Properties.ofWall (Wall.today wall ++ Wall.upcoming wall)
    ≡ₚ map Properties.ofServer (Server.events flat) /\
    Wall.errors wall = Server.errors flat.
Proof.
  apply (wall_agrees_with_events Reference.codeUnit
           Reference.DateTime Reference.plus Reference.toUTCISO
           Reference.fromISO Reference.isValid Reference.toISODate
           Reference.toFormat "UTC" ["A"; "B"] (Js.str "7") Examples.now
           Examples.firstFails [1; 0]%nat
           (Range.window Reference.DateTime Reference.plus Reference.toUTCISO
                         Examples.now 7)).
  - reflexivity.
  - reflexivity.
  - repeat constructor.
Defined.

(** The request [days=400]. *)
Lemma wall_days_never_exceed_60_witness :
  Wall.days
    (Wall.respond Reference.codeUnit Reference.DateTime Reference.fromISO
       Reference.isValid Reference.toISODate "UTC" ["A"]
       (Range.window Reference.DateTime Reference.plus Reference.toUTCISO
                     Examples.now 60)
       Examples.now
       (Wall.fetches Reference.DateTime Reference.fromISO Reference.isValid
          Reference.toFormat Examples.bothSucceed
          (Range.window Reference.DateTime Reference.plus Reference.toUTCISO
                        Examples.now 60) ["A"]))
  <= 60.
Proof.
  apply (wall_days_never_exceed_60 Reference.codeUnit
           Reference.DateTime Reference.plus Reference.toUTCISO
           Reference.fromISO Reference.isValid Reference.toISODate
           Reference.toFormat "UTC" (getCalendarIds Examples.oneCalendar)
           (Js.str "400") Examples.now Examples.bothSucceed [0]%nat).
  reflexivity.
Defined.

End WallProperties.

(* ================================================================== *)
(** * From the single-calendar handler to the multi-calendar one *)
(* ================================================================== *)

Module LegacyProperties.

Lemma upgraded_normalize (calendarId : string) (items : list Calendar.RawEvent) :
  map (Properties.upgraded calendarId) (map Legacy.normalize items)
  = map (Server.normalize calendarId) items.
Proof. rewrite map_map. reflexivity. Qed.

(** An environment that names one trimmed calendar the older way
    configures just that calendar. *)
Lemma single_calendar_configured (env : Env) (calendarId : string) :
  Properties.namesNoCalendar (GOOGLE_CALENDAR_IDS env) ->
  GOOGLE_CALENDAR_ID env = Js.str calendarId ->
  Js.truthy (Js.str calendarId) = true ->
  Js.trim calendarId = calendarId ->
  getCalendarIds env = returned [calendarId].
Proof.
  intros Hlisted Hid Htruthy Htrim.
  apply ConfiguredCalendars.listed_empty_iff in Hlisted.
  unfold getCalendarIds.
  fold (Properties.listed env). rewrite Hlisted, Hid, Htruthy.
  simpl. now rewrite Htrim.
Qed.

Section Handlers.
Variable weight : ascii -> N.
Variable DateTime : Type.
Variable plus : DateTime -> Z -> DateTime.
Variable toUTCISO : DateTime -> Js.value.

Abbreviation legacy := (Legacy.getEvents DateTime plus toUTCISO).
Abbreviation getEvents := (Server.getEvents weight DateTime plus toUTCISO).
Abbreviation requestRange := (Server.requestRange DateTime plus toUTCISO).

(** Backward compatibility: when only [GOOGLE_CALENDAR_ID] names a
    calendar (trimmed), every request the single-calendar handler
    answered with a body is answered by the multi-calendar handler with
    the same zone, range and count, no error, that calendar as the one
    succeeded, and the same events, each with the calendar id put in front
    of its id, sorted by start. *)
Theorem multi_calendar_answer_upgrades_legacy
    TZ env calendarId queryDays now provider order old :
  Properties.namesNoCalendar (GOOGLE_CALENDAR_IDS env) ->
  GOOGLE_CALENDAR_ID env = Js.str calendarId ->
  Js.trim calendarId = calendarId ->
  Spec.settlesAll 1 order ->
  legacy TZ (GOOGLE_CALENDAR_ID env) queryDays now provider = Some (json old) ->
  exists new,
    getEvents TZ (getCalendarIds env) queryDays now provider order
    = Some (json new) /\
    Server.events new
    = Js.sort (Server.compareStart weight)
              (map (Properties.upgraded calendarId) (Legacy.events old)) /\
    Server.timezone new = Legacy.timezone old /\
    Server.range new = Legacy.range old /\
    Server.count new = Legacy.count old /\
    Server.errors new = [] /\
    Server.calendarsSucceeded new = [calendarId].
Proof.
  intros Hlisted Hid Htrim Hall. rewrite Hid. unfold Legacy.getEvents.
  destruct (Js.truthy (Js.str calendarId)) eqn:Htruthy; [|discriminate].
  destruct (requestRange queryDays now) as [r|message] eqn:Hr; [|discriminate].
  cbn [Js.toString].
  destruct (provider (Server.listRequest calendarId r)) as [resp|reason] eqn:Hp.
  - intros [= <-].
    rewrite (single_calendar_configured env calendarId Hlisted Hid Htruthy Htrim).
    eexists.
    split; [exact (EventsEndpoint.getEvents_responds weight DateTime plus
                     toUTCISO TZ [calendarId] _ _ _ _ r Hr Hall)|].
    cbn [Server.respond Server.events Server.timezone Server.range
         Server.count Server.errors Server.calendarsSucceeded
         Legacy.events Legacy.timezone Legacy.range Legacy.count].
    unfold Server.fetches. cbn [map]. rewrite Hp.
    cbn [thenMap fulfilments rejections omap Server.merge flat_map
         Server.fetched Server.Fetched.events Server.Fetched.calendarId map].
    unfold Server.merge.
    assert (Hflat :
      flat_map Server.Fetched.events
        (fulfilments [Js.fulfilled (Server.fetched calendarId resp)])
      = map (Server.normalize calendarId)
            (match Calendar.items resp with
             | Some items => items
             | None => []
             end))
      by apply app_nil_r.
    rewrite Hflat, upgraded_normalize.
    repeat split.
    rewrite (Permutation_length (JsFacts.sort_Permutation _ _)).
    now rewrite !length_map.
  - destruct reason as [message rendering | isTruthy rendering]; simpl.
    + discriminate.
    + destruct (negb isTruthy && _); discriminate.
Qed.

(** Failure isolation, compared: when the fetch of that one calendar is
    rejected with an error object, the single-calendar handler answers
    500 with the error's text, and the multi-calendar handler answers with
    a body that has no events and that same text as its one error. *)
Theorem legacy_failure_becomes_reported_error
    TZ env calendarId queryDays now provider order r message rendering :
  Properties.namesNoCalendar (GOOGLE_CALENDAR_IDS env) ->
  GOOGLE_CALENDAR_ID env = Js.str calendarId ->
  Js.truthy (Js.str calendarId) = true ->
  Js.trim calendarId = calendarId ->
  Spec.settlesAll 1 order ->
  requestRange queryDays now = returned r ->
  provider (Server.listRequest calendarId r)
  = Js.rejected (Js.object message rendering) ->
  exists text new,
    legacy TZ (GOOGLE_CALENDAR_ID env) queryDays now provider
    = Some (status500 text) /\
    getEvents TZ (getCalendarIds env) queryDays now provider order
    = Some (json new) /\
    Server.events new = [] /\
    Server.errors new = [text] /\
    Server.calendarsSucceeded new = [].
Proof.
  intros Hlisted Hid Htruthy Htrim Hall Hr Hp.
  rewrite (single_calendar_configured env calendarId Hlisted Hid Htruthy Htrim).
  rewrite Hid. unfold Legacy.getEvents. rewrite Htruthy, Hr.
  cbn [Js.toString]. rewrite Hp. cbn [Legacy.caught].
  eexists. eexists. split; [reflexivity|].
  split; [exact (EventsEndpoint.getEvents_responds weight DateTime plus
                   toUTCISO TZ [calendarId] _ _ _ _ r Hr Hall)|].
  cbn [Server.respond Server.events Server.errors Server.calendarsSucceeded].
  unfold Server.fetches, Server.merge. cbn [map]. rewrite Hp.
  repeat split.
Qed.

End Handlers.

(** The calendar [A], named the older way, returns the all-day event, an
    event without a start and the event of the next day. *)
Lemma multi_calendar_answer_upgrades_legacy_witness :
  exists new,
    Examples.getEvents "UTC" (getCalendarIds Examples.oneCalendar) Js.undefined
      Examples.now Examples.oneWithoutStart [0]%nat
    = Some (json new) /\
    Server.events new
    = Js.sort (Server.compareStart Reference.codeUnit)
        (map (Properties.upgraded "A")
           (map Legacy.normalize
                [Examples.allDay; Examples.noStart; Examples.tomorrow])) /\
    Server.timezone new = "UTC" /\
    Server.range new = Examples.thirtyDays /\
    Server.count new = 3%nat /\
    Server.errors new = [] /\
    Server.calendarsSucceeded new = ["A"].
Proof.
  apply (multi_calendar_answer_upgrades_legacy Reference.codeUnit
           Reference.DateTime Reference.plus Reference.toUTCISO "UTC"
           Examples.oneCalendar "A" Js.undefined Examples.now
           Examples.oneWithoutStart [0]%nat
           {| Legacy.timezone := "UTC";
              Legacy.range := Examples.thirtyDays;
              Legacy.count := 3;
              Legacy.events :=
                map Legacy.normalize
                    [Examples.allDay; Examples.noStart; Examples.tomorrow] |}).
  - constructor.
  - reflexivity.
  - reflexivity.
  - repeat constructor.
  - reflexivity.
Defined.

(** The calendar [A], named the older way, is over quota. *)
Lemma legacy_failure_becomes_reported_error_witness :
  exists text new,
    Legacy.getEvents Reference.DateTime Reference.plus Reference.toUTCISO
      "UTC" (Js.str "A") Js.undefined Examples.now Examples.bothFail
    = Some (status500 text) /\
    Examples.getEvents "UTC" (getCalendarIds Examples.oneCalendar) Js.undefined
      Examples.now Examples.bothFail [0]%nat
    = Some (json new) /\
    Server.events new = [] /\
    Server.errors new = [text] /\
    Server.calendarsSucceeded new = [].
Proof.
  apply (legacy_failure_becomes_reported_error Reference.codeUnit
           Reference.DateTime Reference.plus Reference.toUTCISO "UTC"
           Examples.oneCalendar "A" Js.undefined Examples.now
           Examples.bothFail [0]%nat Examples.thirtyDays
           (Js.str "quota exceeded") "Error: quota exceeded").
  - constructor.
  - reflexivity.
  - reflexivity.
  - reflexivity.
  - repeat constructor.
  - reflexivity.
  - reflexivity.
Defined.

End LegacyProperties.
